(** * proxy_manager: residential proxy configuration and session rotation

    A shallow embedding of [src/proxy_manager.py] and the properties of its
    specification.

    Conventions of the embedding
    - A Python [str] is a [string]; a character is a code point in
      U+0000..U+00FF, on which [str.lower], [str.strip] and [int] are
      modelled after CPython 3.11.
    - A value read from the JSON configuration document is a [pyval].
    - The operating system's entropy and the logger are the two components
      of a [world] that is threaded through every effectful call; a call
      returns a value or raises.
    - An instance is a record typed by the annotations of [__init__]. The
      constructor itself checks no type, so it is modelled on arguments of
      any type, and an instance that would hold a value outside an
      annotation is a third outcome, [OffType]. *)

From Stdlib Require Import ZArith NArith Ascii String DecimalString DecimalZ.
From Stdlib Require Import Floats.SpecFloat.
From stdpp Require Import gmap strings list fin_maps.

Set Warnings "-register-all".
Local Open Scope string_scope.

(* ===================================================================== *)
(** ** Python built-ins used by the module                                *)
(* ===================================================================== *)

Module Py.

Definition ord (c : ascii) : N := N_of_ascii c.

Definition between (lo hi n : N) : bool := ((lo <=? n) && (n <=? hi))%N.

(** [str.isspace] on U+0000..U+00FF: TAB..CR, FS..US, SPACE, NEL, NBSP. *)
Definition isspace (c : ascii) : bool :=
  let n := ord c in
  between 9 13 n || between 28 32 n || (n =? 133)%N || (n =? 160)%N.

(** Characters with a lower-case mapping: A-Z, U+00C0..U+00D6,
    U+00D8..U+00DE. *)
Definition isupper (c : ascii) : bool :=
  let n := ord c in
  between 65 90 n || between 192 214 n || between 216 222 n.

Definition lower_char (c : ascii) : ascii :=
  if isupper c then ascii_of_N (ord c + 32) else c.

(** [s.lower()] *)
Fixpoint lower (s : string) : string :=
  match s with
  | EmptyString => EmptyString
  | String c r => String (lower_char c) (lower r)
  end.

Fixpoint lstrip_by (sp : ascii -> bool) (s : string) : string :=
  match s with
  | EmptyString => EmptyString
  | String c r => if sp c then lstrip_by sp r else s
  end.

Fixpoint rstrip_by (sp : ascii -> bool) (s : string) : string :=
  match s with
  | EmptyString => EmptyString
  | String c r =>
      match rstrip_by sp r with
      | EmptyString => if sp c then EmptyString else String c EmptyString
      | r' => String c r'
      end
  end.

(** [s.strip()] *)
Definition strip (s : string) : string := rstrip_by isspace (lstrip_by isspace s).

(** [sep.join(parts)] *)
Fixpoint join (sep : string) (parts : list string) : string :=
  match parts with
  | [] => ""
  | [p] => p
  | p :: rest => p +:+ sep +:+ join sep rest
  end.

(** [s[:n]] for [n >= 0] *)
Fixpoint take (n : nat) (s : string) : string :=
  match n, s with
  | S k, String c r => String c (take k r)
  | _, _ => EmptyString
  end.

(** [x in (a, b, c)] on strings *)
Definition str_in (x : string) (l : list string) : bool :=
  existsb (String.eqb x) l.

(** The decimal writing of an integer, of any length. *)
Definition decimal (z : Z) : string := NilZero.string_of_int (Z.to_int z).

(** *** [int(s)] in base 10 *)

(** White space that [int] skips at both ends: the ASCII set of
    [Py_ISSPACE], and the two non-ASCII spaces below U+0100, which the
    conversion turns into SPACE first. FS..US are not skipped. *)
Definition int_space (c : ascii) : bool :=
  let n := ord c in
  between 9 13 n || (n =? 32)%N || (n =? 133)%N || (n =? 160)%N.

Definition digit_val (c : ascii) : option N :=
  let n := ord c in
  if between 48 57 n then Some (n - 48)%N else None.

(** Digits, with single underscores allowed between two digits. Returns
    the value and the number of digits read. *)
Fixpoint scan_digits (s : string) (acc : N) (count : nat) (after_digit : bool)
  : option (N * nat) :=
  match s with
  | EmptyString => if after_digit then Some (acc, count) else None
  | String c r =>
      match digit_val c with
      | Some d => scan_digits r (acc * 10 + d)%N (S count) true
      | None =>
          if (ord c =? 95)%N && after_digit
          then scan_digits r acc count false
          else None
      end
  end.

(** [sys.int_info.default_max_str_digits] *)
Definition int_max_str_digits : nat := 4300.

(** [str(n)], also [f"{n}"], of an [int]: [None] stands for the
    [ValueError] raised when [n] has more digits, sign apart, than the
    limit. *)
Definition str_of_int (z : Z) : option string :=
  if Nat.ltb int_max_str_digits (String.length (decimal (Z.abs z)))
  then None
  else Some (decimal z).

Definition scan_number (s : string) : option N :=
  match scan_digits s 0%N 0%nat false with
  | Some (v, count) => if Nat.ltb int_max_str_digits count then None else Some v
  | None => None
  end.

(** [int(s)]: [None] stands for [ValueError]. *)
Definition int_of_str (s : string) : option Z :=
  match rstrip_by int_space (lstrip_by int_space s) with
  | String c r =>
      if (ord c =? 43)%N then Z.of_N <$> scan_number r
      else if (ord c =? 45)%N then (fun v => (- Z.of_N v)%Z) <$> scan_number r
      else Z.of_N <$> scan_number (String c r)
  | EmptyString => None
  end.

(** *** [uuid.uuid4().hex] *)

Definition hex_char (d : N) : ascii :=
  if (d <? 10)%N then ascii_of_N (48 + d) else ascii_of_N (87 + d).

(** The [k] low hexadecimal digits of [n], most significant first:
    ['%0kx' % n] for [n < 16^k]. *)
Fixpoint hex_digits (k : nat) (n : N) : string :=
  match k with
  | O => EmptyString
  | S k' => hex_digits k' (n / 16)%N +:+ String (hex_char (n mod 16)%N) EmptyString
  end.

(** [UUID(bytes=b, version=4).int], from the big-endian integer of the 16
    bytes: the variant and version bits are forced. *)
Definition uuid4_int (r : N) : N :=
  let i := (r mod 2 ^ 128)%N in
  let i := N.ldiff i (N.shiftl 0xc000 48) in
  let i := N.lor i (N.shiftl 0x8000 48) in
  let i := N.ldiff i (N.shiftl 0xf000 64) in
  N.lor i (N.shiftl 4 76).

Definition uuid_hex (r : N) : string := hex_digits 32 (uuid4_int r).

End Py.

(* ===================================================================== *)
(** ** Values, effects                                                    *)
(* ===================================================================== *)

(** What [json.load] can return, which is also what a caller of the
    factory [from_config] can make the constructor receive. *)
Inductive pyval : Type :=
  | VNone
  | VBool (b : bool)
  | VInt (z : Z)
  | VFloat (f : spec_float)
  | VStr (s : string)
  | VList (l : list pyval)
  | VDict (d : gmap string pyval).

(** [bool(v)] *)
Definition truthy (v : pyval) : bool :=
  match v with
  | VNone => false
  | VBool b => b
  | VInt z => negb (z =? 0)%Z
  | VFloat (S754_zero _) => false
  | VFloat _ => true
  | VStr s => negb (String.eqb s "")
  | VList l => match l with [] => false | _ :: _ => true end
  | VDict d => negb (Nat.eqb (size d) 0)
  end.

(** [a or b] *)
Definition py_or (a b : pyval) : pyval := if truthy a then a else b.

(** [d.get(k, dflt)] on a dictionary *)
Definition dict_get {V : Type} (d : gmap string V) (k : string) (dflt : V) : V :=
  default dflt (d !! k).

Inductive exn : Type := ValueError | AttributeError.

(** The two records the module sends to its logger: the warning of
    [from_config] (its text, the path and the exception are not kept) and
    the information record of [rotate_session] with the new session id. *)
Inductive log_record : Type :=
  | Warning_could_not_load_config
  | Info_session_rotated (sid : string).

(** [urandom k] is the big-endian integer of the [k]-th 16-byte read of
    [os.urandom]; [reads] counts the reads made so far. *)
Record world : Type := World {
  urandom : nat -> N;
  reads : nat;
  log : list log_record
}.

(** How a call ends. [OffType attr]: the constructor returned, with the
    attribute [attr] bound to a value outside its annotated type
    ([__init__] stores its arguments unchecked); the record [ProxyManager]
    below, typed by the annotations, has no such inhabitant. *)
Inductive outcome (A : Type) : Type :=
  | Returns (a : A)
  | Raises (e : exn)
  | OffType (attr : string).
Arguments Returns {A} a.
Arguments Raises {A} e.
Arguments OffType {A} attr.

Definition M (A : Type) : Type := world -> outcome A * world.

Definition ret {A} (a : A) : M A := fun w => (Returns a, w).
Definition raise {A} (e : exn) : M A := fun w => (Raises e, w).
Definition off_type {A} (attr : string) : M A := fun w => (OffType attr, w).
Definition bind {A B} (m : M A) (k : A -> M B) : M B :=
  fun w =>
    match m w with
    | (Returns a, w') => k a w'
    | (Raises e, w') => (Raises e, w')
    | (OffType attr, w') => (OffType attr, w')
    end.

Notation "x <- m ;; k" := (bind m (fun x => k))
  (at level 100, m at next level, right associativity).
Notation "m ;;; k" := (bind m (fun _ => k))
  (at level 100, right associativity).

(** Calls that touch neither the entropy nor the log end in an [outcome]
    alone. *)
Definition obind {A B} (o : outcome A) (k : A -> outcome B) : outcome B :=
  match o with
  | Returns a => k a
  | Raises e => Raises e
  | OffType attr => OffType attr
  end.

Notation "x <~ o ;; k" := (obind o (fun x => k))
  (at level 100, o at next level, right associativity).

Definition lift {A} (o : outcome A) : M A := fun w => (o, w).

(** [os.urandom(16)] as an integer *)
Definition os_urandom : M N :=
  fun w => (Returns (urandom w (reads w)),
            {| urandom := urandom w; reads := S (reads w); log := log w |}).

(** [logger.warning(...)], [logger.info(...)] *)
Definition logger (r : log_record) : M unit :=
  fun w => (Returns tt,
            {| urandom := urandom w; reads := reads w; log := (log w ++ [r])%list |}).

(** [os.getenv(k, dflt)] *)
Definition getenv (env : gmap string string) (k dflt : string) : string :=
  dict_get env k dflt.

(** [v.lower()]: only [str] has the method. *)
Definition method_lower (v : pyval) : M string :=
  match v with
  | VStr s => ret (Py.lower s)
  | _ => raise AttributeError
  end.

(** [v.get(k, dflt)]: only [dict] has the method. *)
Definition method_get (v : pyval) (k : string) (dflt : pyval) : M pyval :=
  match v with
  | VDict d => ret (dict_get d k dflt)
  | _ => raise AttributeError
  end.

(** [int(s)] *)
Definition py_int (s : string) : M Z :=
  match Py.int_of_str s with
  | Some z => ret z
  | None => raise ValueError
  end.

(** [f"{n}"] of an [int] *)
Definition format_int (z : Z) : outcome string :=
  match Py.str_of_int z with
  | Some s => Returns s
  | None => Raises ValueError
  end.

(** The view of a stored attribute through its annotation. A [bool] is
    not taken for an [int]: it formats as [True]/[False]. *)
Definition as_str (attr : string) (v : pyval) : M string :=
  match v with VStr s => ret s | _ => off_type attr end.
Definition as_int (attr : string) (v : pyval) : M Z :=
  match v with VInt z => ret z | _ => off_type attr end.
Definition as_bool (attr : string) (v : pyval) : M bool :=
  match v with VBool b => ret b | _ => off_type attr end.

(* ===================================================================== *)
(** ** The module                                                         *)
(* ===================================================================== *)

(** Default host/port per provider *)
Definition PROVIDER_DEFAULTS : gmap string (gmap string pyval) :=
  {[ "brightdata" := {[ "host" := VStr "brd.superproxy.io"; "port" := VInt 22225 ]};
     "iproyal" := {[ "host" := VStr "proxy.iproyal.com"; "port" := VInt 12321 ]};
     "stormproxies" := {[ "host" := VStr "rotating.stormproxies.com"; "port" := VInt 9999 ]};
     "netnut" := {[ "host" := VStr "gw-resi.netnut.io"; "port" := VInt 5959 ]} ]}.

(** The instance, its attributes typed as [__init__] annotates them. *)
Record ProxyManager : Type := {
  provider : string;
  username : string;
  password : string;
  country : string;
  sticky : bool;
  sticky_ttl_minutes : Z;
  enabled : bool;
  host : string;
  port : Z;
  _session_id : string
}.

(** [uuid.uuid4().hex[:12]] *)
Definition _generate_session_id : M string :=
  r <- os_urandom ;;
  ret (Py.take 12 (Py.uuid_hex r)).

(** [ProxyManager(provider, host, port, username, password, country,
    sticky, sticky_ttl_minutes, enabled)], on arguments of any type. The
    attributes are computed in the order of the source; the typed view is
    taken once the constructor has run to its end. *)
Definition __init__
    (provider_ host_ port_ username_ password_ country_
       sticky_ sticky_ttl_minutes_ enabled_ : pyval) : M ProxyManager :=
  p <- method_lower provider_ ;;
  let self_provider := Py.strip p in
  c <- method_lower country_ ;;
  let self_country := Py.strip c in
  let defaults := dict_get PROVIDER_DEFAULTS self_provider ∅ in
  let self_host := py_or host_ (dict_get defaults "host" (VStr "")) in
  let self_port := py_or port_ (dict_get defaults "port" (VInt 0)) in
  sid <- _generate_session_id ;;
  u <- as_str "username" username_ ;;
  pw <- as_str "password" password_ ;;
  st <- as_bool "sticky" sticky_ ;;
  ttl <- as_int "sticky_ttl_minutes" sticky_ttl_minutes_ ;;
  en <- as_bool "enabled" enabled_ ;;
  h <- as_str "host" self_host ;;
  pt <- as_int "port" self_port ;;
  ret {| provider := self_provider; username := u; password := pw;
         country := self_country; sticky := st; sticky_ttl_minutes := ttl;
         enabled := en; host := h; port := pt; _session_id := sid |}.

(** The keyword arguments of a direct construction, typed, and their
    defaults. *)
Module kw.
Record t : Type := mk {
  provider : string;
  host : string;
  port : Z;
  username : string;
  password : string;
  country : string;
  sticky : bool;
  sticky_ttl_minutes : Z;
  enabled : bool
}.
Definition dflt : t := mk "brightdata" "" 0 "" "" "" true 10 true.
Definition set_enabled (b : bool) (k : t) : t :=
  mk (provider k) (host k) (port k) (username k) (password k) (country k)
     (sticky k) (sticky_ttl_minutes k) b.
End kw.

(** [cls(...)] with the keyword arguments [k] *)
Definition cls (k : kw.t) : M ProxyManager :=
  __init__ (VStr (kw.provider k)) (VStr (kw.host k)) (VInt (kw.port k))
           (VStr (kw.username k)) (VStr (kw.password k)) (VStr (kw.country k))
           (VBool (kw.sticky k)) (VInt (kw.sticky_ttl_minutes k))
           (VBool (kw.enabled k)).

(** [x.lower() in ("true", "1", "yes")] *)
Definition flag (x : string) : bool := Py.str_in (Py.lower x) ["true"; "1"; "yes"].

Definition from_env (env : gmap string string) : M ProxyManager :=
  let enabled_ := flag (getenv env "PROXY_ENABLED" "false") in
  if negb enabled_ then cls (kw.set_enabled false kw.dflt)
  else
    port_ <- py_int (getenv env "PROXY_PORT" "0") ;;
    ttl_ <- py_int (getenv env "PROXY_STICKY_TTL" "10") ;;
    cls (kw.mk (getenv env "PROXY_PROVIDER" "brightdata")
               (getenv env "PROXY_HOST" "")
               port_
               (getenv env "PROXY_USERNAME" "")
               (getenv env "PROXY_PASSWORD" "")
               (getenv env "PROXY_COUNTRY" "")
               (flag (getenv env "PROXY_STICKY" "true"))
               ttl_
               true).

(** [from_config(config_path)]. [loaded] is what opening and parsing the
    file at the path gives: [None] when either raises, the document
    otherwise. *)
Definition from_config (env : gmap string string) (loaded : option pyval)
  : M ProxyManager :=
  match loaded with
  | None =>
      logger Warning_could_not_load_config ;;;
      from_env env
  | Some cfg =>
      proxy_cfg <- method_get cfg "proxy" (VDict ∅) ;;
      en <- method_get proxy_cfg "enabled" (VBool false) ;;
      if negb (truthy en) then cls (kw.set_enabled false kw.dflt)
      else
        provider_ <- method_get proxy_cfg "provider" (VStr "brightdata") ;;
        host_ <- method_get proxy_cfg "host" (VStr "") ;;
        port_ <- method_get proxy_cfg "port" (VInt 0) ;;
        username_ <- method_get proxy_cfg "username" (VStr "") ;;
        password_ <- method_get proxy_cfg "password" (VStr "") ;;
        country_ <- method_get proxy_cfg "country" (VStr "") ;;
        sticky_ <- method_get proxy_cfg "sticky" (VBool true) ;;
        ttl_ <- method_get proxy_cfg "sticky_ttl_minutes" (VInt 10) ;;
        __init__ provider_ host_ port_
                 (py_or username_ (VStr (getenv env "PROXY_USERNAME" "")))
                 (py_or password_ (VStr (getenv env "PROXY_PASSWORD" "")))
                 (py_or country_ (VStr (getenv env "PROXY_COUNTRY" "")))
                 sticky_ ttl_ (VBool true)
  end.

Definition set_session_id (sid : string) (self : ProxyManager) : ProxyManager :=
  {| provider := provider self; username := username self;
     password := password self; country := country self;
     sticky := sticky self; sticky_ttl_minutes := sticky_ttl_minutes self;
     enabled := enabled self; host := host self; port := port self;
     _session_id := sid |}.

(** [self.rotate_session()]: the returned token and the instance after
    the call. *)
Definition rotate_session (self : ProxyManager) : M (string * ProxyManager) :=
  sid <- _generate_session_id ;;
  let self := set_session_id sid self in
  logger (Info_session_rotated (_session_id self)) ;;;
  ret (_session_id self, self).

Definition session_id (self : ProxyManager) : string := _session_id self.

Definition _build_proxy_username (self : ProxyManager) : outcome string :=
  let base := username self in
  if String.eqb (provider self) "brightdata" then
    let parts := [base] in
    let parts := if negb (String.eqb (country self) "")
                 then (parts ++ ["country-" +:+ country self])%list else parts in
    let parts := if sticky self
                 then (parts ++ ["session-" +:+ _session_id self])%list else parts in
    Returns (Py.join "-" parts)
  else if String.eqb (provider self) "netnut" then
    let parts := [base] in
    let parts := if negb (String.eqb (country self) "")
                 then (parts ++ ["country-" +:+ country self])%list else parts in
    let parts := if sticky self
                 then (parts ++ ["session-" +:+ _session_id self])%list else parts in
    Returns (Py.join "-" parts)
  else if String.eqb (provider self) "iproyal" then
    let parts := [base] in
    let parts := if negb (String.eqb (country self) "")
                 then (parts ++ ["country-" +:+ country self])%list else parts in
    parts <~ (if sticky self
              then
                let parts := (parts ++ ["session-" +:+ _session_id self])%list in
                ttl <~ format_int (sticky_ttl_minutes self) ;;
                Returns (parts ++ ["sessTime-" +:+ ttl])%list
              else Returns parts) ;;
    Returns (Py.join "_" parts)
  else if String.eqb (provider self) "stormproxies" then
    Returns base
  else
    Returns base.

Definition get_playwright_proxy (self : ProxyManager)
  : outcome (option (gmap string string)) :=
  if negb (enabled self) || String.eqb (host self) "" then Returns None
  else
    port_ <~ format_int (port self) ;;
    user <~ _build_proxy_username self ;;
    Returns (Some {[ "server" := "http://" +:+ host self +:+ ":" +:+ port_;
                     "username" := user;
                     "password" := password self ]}).

Definition get_requests_proxy (self : ProxyManager)
  : outcome (option (gmap string string)) :=
  if negb (enabled self) || String.eqb (host self) "" then Returns None
  else
    user <~ _build_proxy_username self ;;
    port_ <~ format_int (port self) ;;
    let url := "http://" +:+ user +:+ ":" +:+ password self +:+ "@" +:+ host self
               +:+ ":" +:+ port_ in
    Returns (Some {[ "http" := url; "https" := url ]}).

(** [str(b)] of a [bool] *)
Definition str_of_bool (b : bool) : string := if b then "True" else "False".

Definition info (self : ProxyManager) : outcome string :=
  if negb (enabled self) then Returns "<ProxyManager disabled>"
  else
    port_ <~ format_int (port self) ;;
    Returns
      ("<ProxyManager provider=" +:+ provider self +:+ " enabled "
       +:+ "host=" +:+ host self +:+ ":" +:+ port_
       +:+ " country=" +:+ (if String.eqb (country self) "" then "any" else country self)
       +:+ " "
       +:+ "sticky=" +:+ str_of_bool (sticky self) +:+ " session=" +:+ _session_id self
       +:+ ">").

(* ===================================================================== *)
(** ** Definitions used to state the properties                           *)
(* ===================================================================== *)

(** The token the next call of [_generate_session_id] draws, and the
    world it leaves. *)
Definition next_sid (w : world) : string :=
  Py.take 12 (Py.uuid_hex (urandom w (reads w))).

Definition after_read (w : world) : world :=
  {| urandom := urandom w; reads := S (reads w); log := log w |}.

Definition after_log (r : log_record) (w : world) : world :=
  {| urandom := urandom w; reads := reads w; log := (log w ++ [r])%list |}.

(** The entry of the static table for a provider key, with the fall-backs
    of [__init__]. *)
Definition table_host (p : string) : pyval :=
  dict_get (dict_get PROVIDER_DEFAULTS p ∅) "host" (VStr "").
Definition table_port (p : string) : pyval :=
  dict_get (dict_get PROVIDER_DEFAULTS p ∅) "port" (VInt 0).

Definition known_provider (p : string) : bool :=
  Py.str_in p ["brightdata"; "iproyal"; "stormproxies"; "netnut"].

Fixpoint all_chars (f : ascii -> bool) (s : string) : bool :=
  match s with
  | EmptyString => true
  | String c r => f c && all_chars f r
  end.

Definition first_char (s : string) : option ascii :=
  match s with
  | EmptyString => None
  | String c _ => Some c
  end.

Fixpoint last_char (s : string) : option ascii :=
  match s with
  | EmptyString => None
  | String c EmptyString => Some c
  | String _ r => last_char r
  end.

(** No character has a lower-case mapping, and [lower] leaves the string
    as it is. *)
Definition lower_case (s : string) : Prop :=
  all_chars (fun c => negb (Py.isupper c)) s = true /\ Py.lower s = s.

(** Neither the first nor the last character is white space. *)
Definition no_outer_space (s : string) : Prop :=
  (forall c, first_char s = Some c -> Py.isspace c = false) /\
  (forall c, last_char s = Some c -> Py.isspace c = false).

Definition is_hex_digit (c : ascii) : bool :=
  Py.between 48 57 (Py.ord c) || Py.between 97 102 (Py.ord c).

(** The operations of an instance. *)
Inductive op : Type :=
  | Rotate_session
  | Session_id
  | Build_proxy_username
  | Get_playwright_proxy
  | Get_requests_proxy
  | Info.

(** One operation on the instance: only [rotate_session] changes the
    instance or the world; the results of the reads are dropped, and an
    operation that raises ends the sequence. *)
Definition step (o : op) (self : ProxyManager) : M ProxyManager :=
  match o with
  | Rotate_session => r <- rotate_session self ;; ret (snd r)
  | Session_id => let _ := session_id self in ret self
  | Build_proxy_username => lift (_build_proxy_username self) ;;; ret self
  | Get_playwright_proxy => lift (get_playwright_proxy self) ;;; ret self
  | Get_requests_proxy => lift (get_requests_proxy self) ;;; ret self
  | Info => lift (info self) ;;; ret self
  end.

Fixpoint run (ops : list op) (self : ProxyManager) : M ProxyManager :=
  match ops with
  | [] => ret self
  | o :: rest => self' <- step o self ;; run rest self'
  end.

(** The segments of the spec, in its words: the raw username, then
    [country-<country>] if a country is set, then [session-<sessionId>] if
    sticky, then the extra segments of the provider if sticky. *)
Definition spec_segments (self : ProxyManager) (extra : list string) : list string :=
  ([username self]
   ++ (if String.eqb (country self) "" then [] else ["country-" +:+ country self])
   ++ (if sticky self then ["session-" +:+ _session_id self] ++ extra else []))%list.

(** Both output methods return the absence value. *)
Definition outputs_absent (self : ProxyManager) : Prop :=
  get_playwright_proxy self = Returns None /\ get_requests_proxy self = Returns None.

(** The two integers an instance may have to write are within the digit
    limit of the interpreter. *)
Definition formattable (self : ProxyManager) : Prop :=
  is_Some (Py.str_of_int (port self)) /\
  is_Some (Py.str_of_int (sticky_ttl_minutes self)).

(** The least integer over the digit limit, by its decimal writing: 1
    followed by 4300 zeros, that is 10 ** 4300. *)
Fixpoint zeros (n : nat) : Decimal.uint :=
  match n with
  | O => Decimal.Nil
  | S k => Decimal.D0 (zeros k)
  end.

Definition over_limit : Z := Z.of_int (Decimal.Pos (Decimal.D1 (zeros 4300))).

(** An instance whose sticky lifetime is over the digit limit. *)
Definition sample_long_ttl : ProxyManager :=
  {| provider := "iproyal"; username := "u"; password := "p"; country := "us";
     sticky := true; sticky_ttl_minutes := over_limit; enabled := true;
     host := "proxy.iproyal.com"; port := 12321; _session_id := "9daa622090a4" |}.

(** An instance whose port is over the digit limit. *)
Definition sample_long_port : ProxyManager :=
  {| provider := "brightdata"; username := "u"; password := "p"; country := "us";
     sticky := true; sticky_ttl_minutes := 10; enabled := true;
     host := "brd.superproxy.io"; port := over_limit; _session_id := "9daa622090a4" |}.

(** [PROXY_ENABLED] is unset, or set to a value that is not one of
    [true], [1], [yes] in any case. *)
Definition env_disabled (env : gmap string string) : Prop :=
  env !! "PROXY_ENABLED" = None \/
  exists v, env !! "PROXY_ENABLED" = Some v /\ flag v = false.

(** The document is an object with no [proxy] section, or with a [proxy]
    section that is an object whose [enabled] is missing or falsy. *)
Definition config_disabled (cfg : pyval) : Prop :=
  exists d, cfg = VDict d /\
    (d !! "proxy" = None \/
     exists pc, d !! "proxy" = Some (VDict pc) /\
       (pc !! "enabled" = None \/
        exists v, pc !! "enabled" = Some v /\ truthy v = false)).

(** Two instances agree on every attribute but the session id. *)
Definition same_config (a b : ProxyManager) : Prop :=
  provider a = provider b /\ host a = host b /\ port a = port b /\
  username a = username b /\ password a = password b /\
  country a = country b /\ sticky a = sticky b /\
  sticky_ttl_minutes a = sticky_ttl_minutes b /\ enabled a = enabled b.


(** A world to evaluate in: the first read of the entropy source gives the
    bytes [9d aa 62 20 90 a4 0e ff 08 52 36 89 58 7d cf 54], and each later
    read adds one to the first six bytes. *)
Definition sample_world : world :=
  {| urandom := fun k => (N.of_nat k * 2 ^ 80 + 0x9daa622090a40eff08523689587dcf54)%N;
     reads := 0; log := [] |}.

(** The call raises. *)
Definition raises {A : Type} (r : outcome A * world) : Prop :=
  exists e, fst r = Raises e.

Definition is_str (v : pyval) : bool :=
  match v with VStr _ => true | _ => false end.

(** The integer variable [k] of the environment is unset, or holds a
    base-10 integer literal. *)
Definition env_int_ok (env : gmap string string) (k : string) : Prop :=
  env !! k = None \/ exists v z, env !! k = Some v /\ Py.int_of_str v = Some z.

(** The environments on which [from_env] has no integer to reject. *)
Definition env_accepted (env : gmap string string) : Prop :=
  env_disabled env \/
  (env_int_ok env "PROXY_PORT" /\ env_int_ok env "PROXY_STICKY_TTL").

(** The documents on which [from_config] finds the methods it calls: an
    object, whose [proxy] section is missing or is an object, in which
    either [enabled] is missing or falsy, or [provider] is missing or a
    string and [country] is missing, falsy or a string. *)
Definition config_accepted (cfg : pyval) : Prop :=
  exists d, cfg = VDict d /\
    (d !! "proxy" = None \/
     exists pc, d !! "proxy" = Some (VDict pc) /\
       (truthy (dict_get pc "enabled" (VBool false)) = false \/
        (is_str (dict_get pc "provider" (VStr "brightdata")) = true /\
         (truthy (dict_get pc "country" (VStr "")) = false \/
          is_str (dict_get pc "country" (VStr "")) = true)))).

(** Instances to evaluate on: the inputs of the spec's examples (user
    name [u], country [us], sticky) for a provider and a lifetime. *)
Definition sample_instance (prov host_ : string) (port_ ttl : Z) : ProxyManager :=
  {| provider := prov; username := "u"; password := "p"; country := "us";
     sticky := true; sticky_ttl_minutes := ttl; enabled := true;
     host := host_; port := port_; _session_id := "9daa622090a4" |}.

(** What [cls(enabled=False)] returns in [sample_world]. *)
Definition sample_disabled : ProxyManager :=
  {| provider := "brightdata"; username := ""; password := ""; country := "";
     sticky := true; sticky_ttl_minutes := 10; enabled := false;
     host := "brd.superproxy.io"; port := 22225; _session_id := "9daa622090a4" |}.

(** The keyword arguments that spell out the attributes of an instance. *)
Definition kw_of (self : ProxyManager) : kw.t :=
  kw.mk (provider self) (host self) (port self) (username self) (password self)
        (country self) (sticky self) (sticky_ttl_minutes self) (enabled self).

(** The token made from the [i]-th read of the entropy source. *)
Definition token_at (w : world) (i : nat) : string :=
  Py.take 12 (Py.uuid_hex (urandom w i)).

(** The first six bytes of a 16-byte read, as an integer. *)
Definition first_six_bytes (r : N) : N := ((r mod 2 ^ 128) / 2 ^ 80)%N.

(** How many rotations a sequence of operations holds. *)
Fixpoint rotations (ops : list op) : nat :=
  match ops with
  | [] => 0
  | Rotate_session :: rest => S (rotations rest)
  | _ :: rest => rotations rest
  end.

(** The value of a hexadecimal digit, the inverse of [Py.hex_char]. *)
Definition hex_val (c : ascii) : N :=
  let n := Py.ord c in
  if Py.between 48 57 n then (n - 48)%N else (n - 87)%N.

(** The provider encodes the session id in the user name. *)
Definition encodes_session (p : string) : bool :=
  Py.str_in p ["brightdata"; "netnut"; "iproyal"].

(** The three variables [from_config] reads from the environment. *)
Definition same_credentials_env (e1 e2 : gmap string string) : Prop :=
  e1 !! "PROXY_USERNAME" = e2 !! "PROXY_USERNAME" /\
  e1 !! "PROXY_PASSWORD" = e2 !! "PROXY_PASSWORD" /\
  e1 !! "PROXY_COUNTRY" = e2 !! "PROXY_COUNTRY".

(** A configuration and an environment to evaluate on: the section is
    enabled by a string, names its provider in mixed case, gives a user
    name, an empty password and a null country; the environment gives a
    password, a country, and a provider that [from_config] does not read. *)
Definition sample_section : gmap string pyval :=
  {[ "enabled" := VStr "false"; "provider" := VStr "IPRoyal";
     "username" := VStr "cfg-user"; "password" := VStr ""; "country" := VNone ]}.

Definition sample_config : gmap string pyval := {[ "proxy" := VDict sample_section ]}.

Definition sample_env : gmap string string :=
  {[ "PROXY_PASSWORD" := "env-pass"; "PROXY_COUNTRY" := " DE";
     "PROXY_PROVIDER" := "netnut" ]}.

(** What [from_config] returns on them in [sample_world]. *)
Definition sample_config_instance : ProxyManager :=
  {| provider := "iproyal"; username := "cfg-user"; password := "env-pass";
     country := "de"; sticky := true; sticky_ttl_minutes := 10; enabled := true;
     host := "proxy.iproyal.com"; port := 12321; _session_id := "9daa622090a4" |}.

(** The invariants of an instance built from the host argument [a_host]
    and the port argument [a_port]: the session id is not empty; the
    provider and the country are lower-case with no white space at either
    end; the host is empty, and the port zero, only if the instance is
    disabled or the provider is outside the table and the argument was
    falsy (not supplied). *)
Definition instance_invariant (a_host a_port : pyval) (self : ProxyManager) : Prop :=
  _session_id self <> "" /\
  lower_case (provider self) /\ no_outer_space (provider self) /\
  lower_case (country self) /\ no_outer_space (country self) /\
  (host self = "" ->
   enabled self = false \/
   (known_provider (provider self) = false /\ truthy a_host = false)) /\
  (port self = 0%Z ->
   enabled self = false \/
   (known_provider (provider self) = false /\ truthy a_port = false)).

(* ===================================================================== *)
(** ** Evaluation on concrete inputs                                      *)
(* ===================================================================== *)

Example lower_ex : Py.lower " BrightData " = " brightdata ".
Proof. reflexivity. Qed.
Example strip_ex : Py.strip "  us " = "us".
Proof. reflexivity. Qed.
Example join_ex : Py.join "-" ["u"; "country-us"; "session-ab"] = "u-country-us-session-ab".
Proof. reflexivity. Qed.
Example int_ex1 : Py.int_of_str " 1_000 " = Some 1000%Z.
Proof. reflexivity. Qed.
Example int_ex2 : Py.int_of_str "-007" = Some (-7)%Z.
Proof. reflexivity. Qed.
Example int_ex3 : Py.int_of_str "abc" = None.
Proof. reflexivity. Qed.
Example int_ex4 : Py.int_of_str "1__0" = None /\ Py.int_of_str "" = None /\ Py.int_of_str "- 5" = None.
Proof. repeat split. Qed.
Example uuid_ex :
  Py.uuid_hex 0x9daa622090a40eff08523689587dcf54 = "9daa622090a44eff88523689587dcf54".
Proof. vm_compute. reflexivity. Qed.

Example username_brightdata :
  _build_proxy_username (sample_instance "brightdata" "brd.superproxy.io" 22225 10)
    = Returns "u-country-us-session-9daa622090a4".
Proof. reflexivity. Qed.
Example username_netnut :
  _build_proxy_username (sample_instance "netnut" "gw-resi.netnut.io" 5959 10)
    = Returns "u-country-us-session-9daa622090a4".
Proof. reflexivity. Qed.
Example username_iproyal :
  _build_proxy_username (sample_instance "iproyal" "proxy.iproyal.com" 12321 15)
    = Returns "u_country-us_session-9daa622090a4_sessTime-15".
Proof. reflexivity. Qed.
Example str_of_int_ex :
  Py.str_of_int 0 = Some "0" /\ Py.str_of_int (-42) = Some "-42" /\
  Py.str_of_int 22225 = Some "22225".
Proof. vm_compute. repeat split. Qed.
(** An integer over the digit limit is not written. *)
Example over_limit_unwritable : Py.str_of_int over_limit = None.
Proof.
  unfold Py.str_of_int, Py.decimal, over_limit.
  rewrite Z.abs_eq by (apply N2Z.is_nonneg).
  rewrite !DecimalZ.to_of. vm_compute. reflexivity.
Qed.
Example info_iproyal :
  info (sample_instance "iproyal" "proxy.iproyal.com" 12321 15)
    = Returns "<ProxyManager provider=iproyal enabled host=proxy.iproyal.com:12321 country=us sticky=True session=9daa622090a4>".
Proof. reflexivity. Qed.
Example info_disabled : info sample_disabled = Returns "<ProxyManager disabled>".
Proof. reflexivity. Qed.
Example from_env_unset :
  from_env ∅ sample_world = (Returns sample_disabled, after_read sample_world).
Proof. vm_compute. reflexivity. Qed.
Example from_env_bad_ttl :
  fst (from_env {[ "PROXY_ENABLED" := "1"; "PROXY_STICKY_TTL" := "ten" ]} sample_world)
    = Raises ValueError.
Proof. vm_compute. reflexivity. Qed.
Example from_config_not_an_object :
  fst (from_config ∅ (Some (VList [])) sample_world) = Raises AttributeError.
Proof. vm_compute. reflexivity. Qed.
Example from_config_host_number :
  fst (from_config ∅ (Some (VDict {[ "proxy" :=
         VDict {[ "enabled" := VBool true; "host" := VInt 5 ]} ]})) sample_world)
    = OffType "host".
Proof. vm_compute. reflexivity. Qed.
Example rotate_twice :
  let '(r1, w1) := rotate_session sample_disabled sample_world in
  match r1 with
  | Returns (t1, pm1) =>
      match fst (rotate_session pm1 w1) with
      | Returns (t2, pm2) => (t1, t2, _session_id pm2)
      | _ => ("", "", "")
      end
  | _ => ("", "", "")
  end = ("9daa622090a4", "9daa622090a5", "9daa622090a5").
Proof. vm_compute. reflexivity. Qed.


(* ===================================================================== *)
(** ** The static table                                                   *)
(* ===================================================================== *)

Section Table.

Lemma table_unknown (p : string) :
  known_provider p = false -> PROVIDER_DEFAULTS !! p = None.
Proof.
  unfold known_provider, Py.str_in. simpl. intros H.
  repeat (apply orb_false_iff in H; destruct H as [?%String.eqb_neq H]).
  unfold PROVIDER_DEFAULTS.
  repeat (rewrite lookup_insert_ne by congruence).
  apply lookup_singleton_ne. congruence.
Qed.

Lemma table_host_unknown (p : string) :
  known_provider p = false -> table_host p = VStr "".
Proof.
  intros H. unfold table_host, dict_get. rewrite (table_unknown p H). reflexivity.
Qed.

Lemma table_port_unknown (p : string) :
  known_provider p = false -> table_port p = VInt 0.
Proof.
  intros H. unfold table_port, dict_get. rewrite (table_unknown p H). reflexivity.
Qed.

Lemma known_provider_cases (p : string) :
  known_provider p = true ->
  p = "brightdata" \/ p = "iproyal" \/ p = "stormproxies" \/ p = "netnut".
Proof.
  unfold known_provider, Py.str_in. simpl. intros H.
  repeat (apply orb_true_iff in H; destruct H as [H%String.eqb_eq | H]; [tauto |]).
  discriminate.
Qed.

(** Every entry is a non-empty string and a non-zero integer; the
    fall-backs are the empty string and zero. *)
Lemma table_typed (p : string) :
  exists h z, table_host p = VStr h /\ table_port p = VInt z /\
              (known_provider p = true -> h <> "" /\ z <> 0%Z) /\
              (known_provider p = false -> h = "" /\ z = 0%Z).
Proof.
  destruct (known_provider p) eqn:K.
  - destruct (known_provider_cases p K) as [-> | [-> | [-> | ->]]];
      eexists _, _; (split; [vm_compute; reflexivity |]);
      (split; [vm_compute; reflexivity |]); split; intros; try discriminate;
      split; discriminate.
  - exists "", 0%Z. rewrite table_host_unknown, table_port_unknown by assumption.
    repeat split; intros; discriminate.
Qed.

End Table.

(* ===================================================================== *)
(** ** Construction                                                       *)
(* ===================================================================== *)

Section Construction.

Lemma generate_session_id_eq (w : world) :
  _generate_session_id w = (Returns (next_sid w), after_read w).
Proof. reflexivity. Qed.

Lemma py_or_str (a b : string) :
  py_or (VStr a) (VStr b) = VStr (if String.eqb a "" then b else a).
Proof. unfold py_or. simpl. destruct (String.eqb a ""); reflexivity. Qed.

Lemma py_or_int (a b : Z) :
  py_or (VInt a) (VInt b) = VInt (if (a =? 0)%Z then b else a).
Proof. unfold py_or. simpl. destruct (a =? 0)%Z; reflexivity. Qed.

(** A construction from typed keyword arguments returns: it draws one
    token, and resolves the end point from the arguments and the table. *)
Lemma cls_returns (k : kw.t) (w : world) :
  let p := Py.strip (Py.lower (kw.provider k)) in
  exists h z,
    py_or (VStr (kw.host k)) (table_host p) = VStr h /\
    py_or (VInt (kw.port k)) (table_port p) = VInt z /\
    cls k w =
      (Returns {| provider := p; username := kw.username k;
                  password := kw.password k;
                  country := Py.strip (Py.lower (kw.country k));
                  sticky := kw.sticky k;
                  sticky_ttl_minutes := kw.sticky_ttl_minutes k;
                  enabled := kw.enabled k; host := h; port := z;
                  _session_id := next_sid w |},
       after_read w).
Proof.
  intros p. destruct (table_typed p) as (h0 & z0 & Hh & Hz & _).
  exists (if String.eqb (kw.host k) "" then h0 else kw.host k),
         (if (kw.port k =? 0)%Z then z0 else kw.port k).
  rewrite Hh, Hz, py_or_str, py_or_int. split; [reflexivity |]. split; [reflexivity |].
  unfold cls, __init__, bind. simpl method_lower. unfold ret at 1 2.
  rewrite generate_session_id_eq. simpl as_str. simpl as_bool. simpl as_int.
  unfold ret at 1 2 3 4 5.
  fold p. fold (table_host p). fold (table_port p).
  rewrite Hh, Hz, py_or_str, py_or_int. reflexivity.
Qed.

End Construction.

Section Resolution.

Lemma table_entries :
  (table_host "brightdata" = VStr "brd.superproxy.io" /\ table_port "brightdata" = VInt 22225) /\
  (table_host "iproyal" = VStr "proxy.iproyal.com" /\ table_port "iproyal" = VInt 12321) /\
  (table_host "stormproxies" = VStr "rotating.stormproxies.com" /\ table_port "stormproxies" = VInt 9999) /\
  (table_host "netnut" = VStr "gw-resi.netnut.io" /\ table_port "netnut" = VInt 5959).
Proof. vm_compute. repeat split. Qed.

Lemma py_or_empty_str (v : pyval) : py_or (VStr "") v = v.
Proof. reflexivity. Qed.

Lemma py_or_zero (v : pyval) : py_or (VInt 0) v = v.
Proof. reflexivity. Qed.

Lemma py_or_explicit_str (s : string) (v : pyval) : s <> "" -> py_or (VStr s) v = VStr s.
Proof.
  intros H. unfold py_or. simpl. apply String.eqb_neq in H. rewrite H. reflexivity.
Qed.

Lemma py_or_explicit_int (z : Z) (v : pyval) : z <> 0%Z -> py_or (VInt z) v = VInt z.
Proof.
  intros H. unfold py_or. simpl. apply Z.eqb_neq in H. rewrite H. reflexivity.
Qed.

End Resolution.

(** C5. A construction from typed keyword arguments returns an instance
    whose provider is the normalised argument and whose end point is
    resolved as follows. With no explicit host (empty string), the host is
    the table entry of each of the four known providers, and the empty
    string for any other provider; with no explicit port (zero), the port is
    the table entry, and zero for any other provider; a non-empty host
    argument and a non-zero port argument are kept whatever the table
    holds. *)
Theorem C5_default_resolution (k : kw.t) (w : world) :
  exists pm,
    cls k w = (Returns pm, after_read w) /\
    provider pm = Py.strip (Py.lower (kw.provider k)) /\
    (kw.host k = "" ->
       (provider pm = "brightdata" -> host pm = "brd.superproxy.io") /\
       (provider pm = "iproyal" -> host pm = "proxy.iproyal.com") /\
       (provider pm = "stormproxies" -> host pm = "rotating.stormproxies.com") /\
       (provider pm = "netnut" -> host pm = "gw-resi.netnut.io") /\
       (known_provider (provider pm) = false -> host pm = "")) /\
    (kw.port k = 0%Z ->
       (provider pm = "brightdata" -> port pm = 22225%Z) /\
       (provider pm = "iproyal" -> port pm = 12321%Z) /\
       (provider pm = "stormproxies" -> port pm = 9999%Z) /\
       (provider pm = "netnut" -> port pm = 5959%Z) /\
       (known_provider (provider pm) = false -> port pm = 0%Z)) /\
    (kw.host k <> "" -> host pm = kw.host k) /\
    (kw.port k <> 0%Z -> port pm = kw.port k).
Proof.
  destruct (cls_returns k w) as (h & z & Hh & Hz & E).
  destruct table_entries as ((B1 & B2) & (I1 & I2) & (S1 & S2) & (N1 & N2)).
  eexists. split; [exact E |]. cbn [provider host port].
  split; [reflexivity |].
  set (p := Py.strip (Py.lower (kw.provider k))) in *.
  repeat split.
  - intros ->. rewrite H, py_or_empty_str, B1 in Hh. congruence.
  - intros ->. rewrite H, py_or_empty_str, I1 in Hh. congruence.
  - intros ->. rewrite H, py_or_empty_str, S1 in Hh. congruence.
  - intros ->. rewrite H, py_or_empty_str, N1 in Hh. congruence.
  - intros U. rewrite H, py_or_empty_str, (table_host_unknown p U) in Hh. congruence.
  - intros ->. rewrite H, py_or_zero, B2 in Hz. congruence.
  - intros ->. rewrite H, py_or_zero, I2 in Hz. congruence.
  - intros ->. rewrite H, py_or_zero, S2 in Hz. congruence.
  - intros ->. rewrite H, py_or_zero, N2 in Hz. congruence.
  - intros U. rewrite H, py_or_zero, (table_port_unknown p U) in Hz. congruence.
  - intros Hne. rewrite (py_or_explicit_str _ _ Hne) in Hh. congruence.
  - intros Hne. rewrite (py_or_explicit_int _ _ Hne) in Hz. congruence.
Qed.

Section Constructor_inversion.

(** When the constructor returns an instance, on arguments of any type,
    every argument had its annotated type (up to the replacement of a
    falsy host or port by the table entry), one token was drawn, and the
    instance is the one below. *)
Lemma init_inv (a_provider a_host a_port a_username a_password a_country
                a_sticky a_ttl a_enabled : pyval) (w w' : world) (pm : ProxyManager) :
  __init__ a_provider a_host a_port a_username a_password a_country
           a_sticky a_ttl a_enabled w = (Returns pm, w') ->
  exists p c u pw st ttl en h z,
    a_provider = VStr p /\ a_country = VStr c /\ a_username = VStr u /\
    a_password = VStr pw /\ a_sticky = VBool st /\ a_ttl = VInt ttl /\
    a_enabled = VBool en /\
    py_or a_host (table_host (Py.strip (Py.lower p))) = VStr h /\
    py_or a_port (table_port (Py.strip (Py.lower p))) = VInt z /\
    w' = after_read w /\
    pm = {| provider := Py.strip (Py.lower p); username := u; password := pw;
            country := Py.strip (Py.lower c); sticky := st;
            sticky_ttl_minutes := ttl; enabled := en; host := h; port := z;
            _session_id := next_sid w |}.
Proof.
  unfold __init__, bind. intros H.
  destruct a_provider as [| | | |p| |]; simpl in H; try discriminate.
  destruct a_country as [| | | |c| |]; simpl in H; try discriminate.
  destruct a_username as [| | | |u| |]; simpl in H; try discriminate.
  destruct a_password as [| | | |pw| |]; simpl in H; try discriminate.
  destruct a_sticky as [|st| | | | |]; simpl in H; try discriminate.
  destruct a_ttl as [| |ttl| | | |]; simpl in H; try discriminate.
  destruct a_enabled as [|en| | | | |]; simpl in H; try discriminate.
  fold (table_host (Py.strip (Py.lower p))) in H.
  fold (table_port (Py.strip (Py.lower p))) in H.
  destruct (py_or a_host (table_host (Py.strip (Py.lower p)))) as [| | | |h| |] eqn:Eh;
    simpl in H; try discriminate.
  destruct (py_or a_port (table_port (Py.strip (Py.lower p)))) as [| |z| | | |] eqn:Ez;
    simpl in H; try discriminate.
  unfold ret in H. injection H as <- <-.
  exists p, c, u, pw, st, ttl, en, h, z. repeat split; assumption || reflexivity.
Qed.

End Constructor_inversion.

(* ===================================================================== *)
(** ** The factories                                                      *)
(* ===================================================================== *)

Section Factories.

Lemma cls_disabled (w : world) :
  cls (kw.set_enabled false kw.dflt) w =
    (Returns {| provider := "brightdata"; username := ""; password := "";
                country := ""; sticky := true; sticky_ttl_minutes := 10;
                enabled := false; host := "brd.superproxy.io"; port := 22225;
                _session_id := next_sid w |},
     after_read w).
Proof.
  destruct (cls_returns (kw.set_enabled false kw.dflt) w) as (h & z & Hh & Hz & E).
  vm_compute in Hh, Hz. injection Hh as <-. injection Hz as <-. exact E.
Qed.

Lemma env_disabled_flag (env : gmap string string) :
  env_disabled env <-> flag (getenv env "PROXY_ENABLED" "false") = false.
Proof.
  unfold env_disabled, getenv, dict_get.
  destruct (env !! "PROXY_ENABLED") as [v|]; simpl; split.
  - intros [? | (v' & [= <-] & ?)]; [discriminate | assumption].
  - intros H. right. exists v. split; [reflexivity | assumption].
  - reflexivity.
  - intros _. left. reflexivity.
Qed.

Lemma from_env_disabled (env : gmap string string) (w : world) :
  env_disabled env -> from_env env w = cls (kw.set_enabled false kw.dflt) w.
Proof.
  intros H%env_disabled_flag. unfold from_env. rewrite H. reflexivity.
Qed.

Lemma from_config_disabled (env : gmap string string) (cfg : pyval) (w : world) :
  config_disabled cfg ->
  from_config env (Some cfg) w = cls (kw.set_enabled false kw.dflt) w.
Proof.
  intros (d & -> & H). unfold from_config, bind, method_get, dict_get, ret.
  destruct H as [Hd | (pc & Hd & H)]; rewrite Hd; simpl.
  - rewrite lookup_empty. reflexivity.
  - destruct H as [He | (v & He & Hv)]; rewrite He; simpl;
      [reflexivity | rewrite Hv; reflexivity].
Qed.

(** An instance returned on the enabled path of [from_env] is enabled. *)
Lemma from_env_returns_enabled (env : gmap string string) (w w' : world) (pm : ProxyManager) :
  from_env env w = (Returns pm, w') ->
  enabled pm = flag (getenv env "PROXY_ENABLED" "false").
Proof.
  unfold from_env. destruct (flag (getenv env "PROXY_ENABLED" "false")); simpl.
  - unfold bind, py_int.
    destruct (Py.int_of_str (getenv env "PROXY_PORT" "0")) as [pt|]; [| discriminate].
    destruct (Py.int_of_str (getenv env "PROXY_STICKY_TTL" "10")) as [tl|]; [| discriminate].
    unfold ret. match goal with |- cls ?k w = _ -> _ =>
      destruct (cls_returns k w) as (h & z & _ & _ & ->) end.
    intros [= <- _]. reflexivity.
  - rewrite cls_disabled. intros [= <- _]. reflexivity.
Qed.

(** An instance returned by [from_config] from a loaded document is
    disabled only through [cls(enabled=False)]. *)
Lemma from_config_loaded_disabled (env : gmap string string) (cfg : pyval)
      (w w' : world) (pm : ProxyManager) :
  from_config env (Some cfg) w = (Returns pm, w') ->
  enabled pm = false ->
  cls (kw.set_enabled false kw.dflt) w = (Returns pm, w').
Proof.
  unfold from_config, bind. intros H Hen.
  destruct cfg as [| | | | | |d]; simpl in H; try discriminate.
  unfold ret in H.
  destruct (dict_get d "proxy" (VDict ∅)) as [| | | | | |pc]; simpl in H; try discriminate.
  unfold ret in H.
  destruct (truthy (dict_get pc "enabled" (VBool false))); simpl in H; [| exact H].
  apply init_inv in H.
  destruct H as (p & c & u & pw & st & ttl & en & h & z & _ & _ & _ & _ & _ & _ & [= <-] & _ & _ & _ & ->).
  discriminate.
Qed.

End Factories.

(* ===================================================================== *)
(** ** The output methods                                                 *)
(* ===================================================================== *)

Section Outputs.

(** The formatting methods return or raise [ValueError]. *)
Lemma format_int_outcome (z : Z) :
  (exists t, Py.str_of_int z = Some t /\ format_int z = Returns t) \/
  (Py.str_of_int z = None /\ format_int z = Raises ValueError).
Proof.
  unfold format_int. destruct (Py.str_of_int z) as [t |]; [left; eauto | right; auto].
Qed.

Lemma build_username_outcome (pm : ProxyManager) :
  (exists u, _build_proxy_username pm = Returns u) \/
  _build_proxy_username pm = Raises ValueError.
Proof.
  unfold _build_proxy_username.
  repeat match goal with |- context [if ?b then _ else _] => destruct b end;
    simpl; eauto.
  all: destruct (format_int_outcome (sticky_ttl_minutes pm)) as [(t & _ & ->) | [_ ->]];
    simpl; eauto.
Qed.

Lemma playwright_absent_iff (pm : ProxyManager) :
  get_playwright_proxy pm = Returns None <-> enabled pm = false \/ host pm = "".
Proof.
  unfold get_playwright_proxy.
  destruct (enabled pm); simpl; [| tauto].
  destruct (String.eqb_spec (host pm) ""); [tauto |].
  split; [| intros [? | ?]; [discriminate | contradiction]].
  destruct (format_int (port pm)); simpl; try discriminate.
  destruct (_build_proxy_username pm); simpl; discriminate.
Qed.

Lemma requests_absent_iff (pm : ProxyManager) :
  get_requests_proxy pm = Returns None <-> enabled pm = false \/ host pm = "".
Proof.
  unfold get_requests_proxy.
  destruct (enabled pm); simpl; [| tauto].
  destruct (String.eqb_spec (host pm) ""); [tauto |].
  split; [| intros [? | ?]; [discriminate | contradiction]].
  destruct (_build_proxy_username pm); simpl; try discriminate.
  destruct (format_int (port pm)); simpl; discriminate.
Qed.

Lemma disabled_outputs_absent (pm : ProxyManager) :
  enabled pm = false \/ host pm = "" -> outputs_absent pm.
Proof.
  intros H. split; [apply playwright_absent_iff | apply requests_absent_iff]; exact H.
Qed.

End Outputs.

(** C4. Both output methods return the absence value on every instance
    that is disabled or whose host is empty, whatever its other attributes.
    A disabled instance is what a direct construction with [enabled=False]
    returns, what [from_config] returns on a document with no [proxy]
    section or with a [proxy] section whose [enabled] is missing or falsy,
    and what [from_env] returns when [PROXY_ENABLED] is unset or falsy. *)
Theorem C4_absent_outputs :
  (forall pm : ProxyManager,
      enabled pm = false \/ host pm = "" -> outputs_absent pm) /\
  (forall (k : kw.t) (w : world),
      kw.enabled k = false ->
      exists pm, cls k w = (Returns pm, after_read w) /\
                 enabled pm = false /\ outputs_absent pm) /\
  (forall (env : gmap string string) (cfg : pyval) (w : world),
      config_disabled cfg ->
      exists pm, from_config env (Some cfg) w = (Returns pm, after_read w) /\
                 enabled pm = false /\ outputs_absent pm) /\
  (forall (env : gmap string string) (w : world),
      env_disabled env ->
      exists pm, from_env env w = (Returns pm, after_read w) /\
                 enabled pm = false /\ outputs_absent pm).
Proof.
  split; [exact disabled_outputs_absent |]. split; [| split].
  - intros k w Hk. destruct (cls_returns k w) as (h & z & _ & _ & E).
    eexists. split; [exact E |]. split; [exact Hk |].
    apply disabled_outputs_absent. left. exact Hk.
  - intros env cfg w H. rewrite (from_config_disabled env cfg w H), cls_disabled.
    eexists. split; [reflexivity |]. split; [reflexivity |].
    apply disabled_outputs_absent. left. reflexivity.
  - intros env w H. rewrite (from_env_disabled env w H), cls_disabled.
    eexists. split; [reflexivity |]. split; [reflexivity |].
    apply disabled_outputs_absent. left. reflexivity.
Qed.

(** C10. Every disabled instance that a factory returns, [from_env] or
    [from_config] on any outcome of loading the configuration, has the
    default provider [brightdata] with the host [brd.superproxy.io] and the
    port 22225 of the table: its host is not empty. Its two output methods
    return the absence value, and they do not return it on any enabled
    instance with the same host. *)
Theorem C10_disabled_factory_instance
    (env : gmap string string) (loaded : option pyval) (w w' : world) (pm : ProxyManager) :
  from_env env w = (Returns pm, w') \/ from_config env loaded w = (Returns pm, w') ->
  enabled pm = false ->
  provider pm = "brightdata" /\ host pm = "brd.superproxy.io" /\ port pm = 22225%Z /\
  host pm <> "" /\ outputs_absent pm /\
  (forall q : ProxyManager,
      host q = host pm -> enabled q = true ->
      get_playwright_proxy q <> Returns None /\ get_requests_proxy q <> Returns None).
Proof.
  intros H Hen.
  assert (D : exists w0, cls (kw.set_enabled false kw.dflt) w0 = (Returns pm, w')).
  { destruct H as [H | H].
    - exists w. pose proof (from_env_returns_enabled env w w' pm H) as F.
      rewrite Hen in F. symmetry in F. apply env_disabled_flag in F.
      rewrite <- (from_env_disabled env w F). exact H.
    - destruct loaded as [cfg |].
      + exists w. exact (from_config_loaded_disabled env cfg w w' pm H Hen).
      + unfold from_config, bind in H. simpl in H.
        exists (after_log Warning_could_not_load_config w).
        fold (after_log Warning_could_not_load_config w) in H.
        pose proof (from_env_returns_enabled env _ w' pm H) as F.
        rewrite Hen in F. symmetry in F. apply env_disabled_flag in F.
        rewrite <- (from_env_disabled env _ F). exact H. }
  destruct D as (w0 & D). rewrite cls_disabled in D. injection D as <- _.
  cbn [provider host port].
  do 3 (split; [reflexivity |]). split; [discriminate |].
  split; [apply disabled_outputs_absent; left; reflexivity |].
  intros q Hq Eq. split; intros Habs.
  - apply playwright_absent_iff in Habs.
    destruct Habs as [Habs | Habs]; [congruence |].
    rewrite Habs in Hq. discriminate.
  - apply requests_absent_iff in Habs.
    destruct Habs as [Habs | Habs]; [congruence |].
    rewrite Habs in Hq. discriminate.
Qed.

(* ===================================================================== *)
(** ** Strings: normalisation and tokens                                  *)
(* ===================================================================== *)

Section Strings.

Lemma lower_char_not_upper (c : ascii) : Py.isupper (Py.lower_char c) = false.
Proof. destruct c as [[] [] [] [] [] [] [] []]; reflexivity. Qed.

Lemma lower_all (s : string) :
  all_chars (fun c => negb (Py.isupper c)) (Py.lower s) = true.
Proof.
  induction s as [| c r IH]; simpl; [reflexivity |].
  rewrite lower_char_not_upper, IH. reflexivity.
Qed.

Lemma lower_fixed (s : string) :
  all_chars (fun c => negb (Py.isupper c)) s = true -> Py.lower s = s.
Proof.
  induction s as [| c r IH]; simpl; [reflexivity |].
  intros [Hc Hr]%andb_true_iff. rewrite (IH Hr). unfold Py.lower_char.
  apply negb_true_iff in Hc. rewrite Hc. reflexivity.
Qed.

Lemma lstrip_all (f sp : ascii -> bool) (s : string) :
  all_chars f s = true -> all_chars f (Py.lstrip_by sp s) = true.
Proof.
  induction s as [| c r IH]; simpl; [reflexivity |].
  intros H. destruct (sp c); [| exact H].
  apply andb_true_iff in H. apply IH, H.
Qed.

Lemma rstrip_all (f sp : ascii -> bool) (s : string) :
  all_chars f s = true -> all_chars f (Py.rstrip_by sp s) = true.
Proof.
  induction s as [| c r IH]; simpl; [reflexivity |].
  intros [Hc Hr]%andb_true_iff. specialize (IH Hr).
  destruct (Py.rstrip_by sp r) as [| c' r'].
  - destruct (sp c); simpl; [reflexivity | rewrite Hc; reflexivity].
  - simpl in *. rewrite Hc. exact IH.
Qed.

Lemma lstrip_first (sp : ascii -> bool) (s : string) (c : ascii) :
  first_char (Py.lstrip_by sp s) = Some c -> sp c = false.
Proof.
  induction s as [| a r IH]; simpl; [discriminate |].
  destruct (sp a) eqn:E; [exact IH |]. simpl. intros [= <-]. exact E.
Qed.

Lemma rstrip_first (sp : ascii -> bool) (s : string) (c : ascii) :
  first_char (Py.rstrip_by sp s) = Some c -> first_char s = Some c.
Proof.
  destruct s as [| a r]; simpl; [discriminate |].
  destruct (Py.rstrip_by sp r); [destruct (sp a) |]; simpl; congruence.
Qed.

Lemma rstrip_last (sp : ascii -> bool) (s : string) (c : ascii) :
  last_char (Py.rstrip_by sp s) = Some c -> sp c = false.
Proof.
  induction s as [| a r IH]; simpl; [discriminate |].
  destruct (Py.rstrip_by sp r) as [| b r'].
  - destruct (sp a) eqn:E; simpl; [discriminate |]. intros [= <-]. exact E.
  - exact IH.
Qed.

(** What [x.lower().strip()] returns is lower-case and has no white
    space at either end. *)
Lemma normalised (s : string) :
  lower_case (Py.strip (Py.lower s)) /\ no_outer_space (Py.strip (Py.lower s)).
Proof.
  assert (A : all_chars (fun c => negb (Py.isupper c)) (Py.strip (Py.lower s)) = true).
  { unfold Py.strip. apply rstrip_all, lstrip_all, lower_all. }
  split; [split; [exact A | exact (lower_fixed _ A)] |].
  unfold Py.strip. split; intros c H.
  - apply rstrip_first in H. exact (lstrip_first _ _ _ H).
  - exact (rstrip_last _ _ _ H).
Qed.

Lemma length_append (a b : string) :
  String.length (a +:+ b) = String.length a + String.length b.
Proof. induction a as [| c r IH]; simpl; [reflexivity | rewrite IH; reflexivity]. Qed.

Lemma all_chars_append (f : ascii -> bool) (a b : string) :
  all_chars f (a +:+ b) = all_chars f a && all_chars f b.
Proof.
  induction a as [| c r IH]; simpl; [reflexivity |].
  rewrite IH, andb_assoc. reflexivity.
Qed.

Lemma hex_char_is_hex (d : N) : (d < 16)%N -> is_hex_digit (Py.hex_char d) = true.
Proof.
  intros H.
  assert (E : exists k : nat, (k < 16)%nat /\ d = N.of_nat k).
  { exists (N.to_nat d). split; lia. }
  destruct E as (k & Hk & ->).
  do 16 (destruct k as [| k]; [reflexivity |]). lia.
Qed.

Lemma hex_digits_length (k : nat) (n : N) : String.length (Py.hex_digits k n) = k.
Proof.
  revert n. induction k as [| k IH]; intros n; simpl; [reflexivity |].
  rewrite length_append, IH. simpl. lia.
Qed.

Lemma hex_digits_all (k : nat) (n : N) : all_chars is_hex_digit (Py.hex_digits k n) = true.
Proof.
  revert n. induction k as [| k IH]; intros n; simpl; [reflexivity |].
  rewrite all_chars_append, IH. simpl.
  rewrite hex_char_is_hex; [reflexivity |]. apply N.mod_lt. discriminate.
Qed.

Lemma take_length (n : nat) (s : string) :
  n <= String.length s -> String.length (Py.take n s) = n.
Proof.
  revert s. induction n as [| n IH]; intros [| c r]; simpl; try reflexivity; try lia.
  intros H. rewrite IH; lia.
Qed.

Lemma take_all (f : ascii -> bool) (n : nat) (s : string) :
  all_chars f s = true -> all_chars f (Py.take n s) = true.
Proof.
  revert s. induction n as [| n IH]; intros [| c r]; simpl; try reflexivity.
  intros [Hc Hr]%andb_true_iff. rewrite Hc, (IH r Hr). reflexivity.
Qed.

(** A session token is twelve lower-case hexadecimal digits. *)
Lemma next_sid_token (w : world) :
  String.length (next_sid w) = 12 /\ all_chars is_hex_digit (next_sid w) = true.
Proof.
  unfold next_sid, Py.uuid_hex. split.
  - apply take_length. rewrite hex_digits_length. lia.
  - apply take_all, hex_digits_all.
Qed.

Lemma length_12_nonempty (s : string) : String.length s = 12 -> s <> "".
Proof. intros H ->. discriminate. Qed.

End Strings.

(* ===================================================================== *)
(** ** User name formatting                                               *)
(* ===================================================================== *)

Lemma build_username_segments (pm : ProxyManager) :
  (provider pm = "brightdata" \/ provider pm = "netnut" ->
   _build_proxy_username pm = Returns (Py.join "-" (spec_segments pm []))) /\
  (provider pm = "iproyal" ->
   (sticky pm = false ->
    _build_proxy_username pm = Returns (Py.join "_" (spec_segments pm []))) /\
   (forall t, Py.str_of_int (sticky_ttl_minutes pm) = Some t ->
    _build_proxy_username pm =
      Returns (Py.join "_" (spec_segments pm ["sessTime-" +:+ t]))) /\
   (sticky pm = true -> Py.str_of_int (sticky_ttl_minutes pm) = None ->
    _build_proxy_username pm = Raises ValueError)).
Proof.
  unfold _build_proxy_username, spec_segments, format_int.
  split; [intros [E | E] | intros E]; rewrite E; simpl String.eqb; cbv iota.
  - destruct (String.eqb (country pm) ""), (sticky pm); reflexivity.
  - destruct (String.eqb (country pm) ""), (sticky pm); reflexivity.
  - split; [| split].
    + intros ->. destruct (String.eqb (country pm) ""); reflexivity.
    + intros t ->. destruct (String.eqb (country pm) ""), (sticky pm); reflexivity.
    + intros -> ->. destruct (String.eqb (country pm) ""); reflexivity.
Qed.

(** C2 (as amended). For the providers [brightdata] and [netnut] the
    formatted user name of every instance is the segments of the spec (raw
    user name, [country-<country>] if the country is not empty,
    [session-<sessionId>] if sticky) joined with [-]. For [iproyal] it is
    the same segments, followed when sticky by
    [sessTime-<stickyTtlMinutes>], joined with [_], provided the lifetime
    can be written: a sticky [iproyal] instance whose lifetime has more
    digits than the interpreter's limit makes the call raise
    [ValueError]. *)
Theorem C2_username_segments (pm : ProxyManager) :
  (provider pm = "brightdata" \/ provider pm = "netnut" ->
   _build_proxy_username pm = Returns (Py.join "-" (spec_segments pm []))) /\
  (provider pm = "iproyal" ->
   (sticky pm = false ->
    _build_proxy_username pm = Returns (Py.join "_" (spec_segments pm []))) /\
   (forall t, Py.str_of_int (sticky_ttl_minutes pm) = Some t ->
    _build_proxy_username pm =
      Returns (Py.join "_" (spec_segments pm ["sessTime-" +:+ t]))) /\
   (sticky pm = true -> Py.str_of_int (sticky_ttl_minutes pm) = None ->
    _build_proxy_username pm = Raises ValueError)).
Proof. exact (build_username_segments pm). Qed.

(** C2, as the spec states it, fails: on a sticky [iproyal] instance whose
    lifetime is 10 ** 4300 the call returns no user name, it raises
    [ValueError]. *)
Lemma C2_counterexample :
  provider sample_long_ttl = "iproyal" /\ sticky sample_long_ttl = true /\
  _build_proxy_username sample_long_ttl = Raises ValueError.
Proof.
  split; [reflexivity |]. split; [reflexivity |].
  destruct (build_username_segments sample_long_ttl) as (_ & B).
  destruct (B eq_refl) as (_ & _ & B3). exact (B3 eq_refl over_limit_unwritable).
Qed.

(** C6. For the provider [stormproxies], and for any provider outside the
    four of the table, the formatted user name is the raw user name,
    whatever the country, the sticky flag and the sticky lifetime. *)
Theorem C6_username_unchanged (pm : ProxyManager) :
  provider pm = "stormproxies" \/ known_provider (provider pm) = false ->
  _build_proxy_username pm = Returns (username pm).
Proof.
  unfold _build_proxy_username. intros [E | U].
  - rewrite E. reflexivity.
  - unfold known_provider, Py.str_in in U. simpl in U.
    repeat (apply orb_false_iff in U; destruct U as [? U]).
    repeat match goal with H : String.eqb _ _ = false |- _ => rewrite H; clear H end.
    reflexivity.
Qed.

(** C7 (as amended). On an enabled instance with a non-empty host,
    [get_requests_proxy] returns, when the user name is formatted and the
    port can be written, a mapping with exactly the keys [http] and
    [https], both bound to the one string
    [http://<user>:<password>@<host>:<port>], where [<user>] is the
    formatted user name; when formatting the user name raises, or the port
    has more digits than the interpreter's limit, it raises
    [ValueError]. *)
Theorem C7_requests_proxy (pm : ProxyManager) :
  enabled pm = true -> host pm <> "" ->
  (forall user port_,
      _build_proxy_username pm = Returns user ->
      Py.str_of_int (port pm) = Some port_ ->
      let url := "http://" +:+ user +:+ ":" +:+ password pm
                 +:+ "@" +:+ host pm +:+ ":" +:+ port_ in
      exists m : gmap string string,
        get_requests_proxy pm = Returns (Some m) /\
        m !! "http" = Some url /\ m !! "https" = Some url /\
        (forall k, k <> "http" -> k <> "https" -> m !! k = None)) /\
  (_build_proxy_username pm = Raises ValueError \/ Py.str_of_int (port pm) = None ->
   get_requests_proxy pm = Raises ValueError).
Proof.
  intros He Hh. unfold get_requests_proxy, format_int.
  apply String.eqb_neq in Hh. rewrite He, Hh. simpl negb. simpl orb. cbv iota.
  split.
  - intros user port_ -> ->. simpl obind.
    eexists. split; [reflexivity |]. split; [| split].
    + apply lookup_insert_eq.
    + rewrite lookup_insert_ne by discriminate. apply lookup_singleton_eq.
    + intros k H1 H2. rewrite lookup_insert_ne by congruence.
      apply lookup_singleton_ne. congruence.
  - intros [-> | Hp]; [reflexivity |].
    destruct (build_username_outcome pm) as [[u ->] | ->]; [| reflexivity].
    simpl. rewrite Hp. reflexivity.
Qed.

(** C7, as the spec states it, fails: on an enabled [brightdata] instance
    with a host whose port is 10 ** 4300 the call returns no mapping, it
    raises [ValueError]. *)
Lemma C7_counterexample :
  enabled sample_long_port = true /\ host sample_long_port <> "" /\
  get_requests_proxy sample_long_port = Raises ValueError.
Proof.
  split; [reflexivity |]. split; [discriminate |].
  unfold get_requests_proxy, format_int.
  change (port sample_long_port) with over_limit. rewrite over_limit_unwritable.
  reflexivity.
Qed.

(* ===================================================================== *)
(** ** Session rotation and the life of an instance                       *)
(* ===================================================================== *)

Section Rotation.

Lemma rotate_session_eq (pm : ProxyManager) (w : world) :
  rotate_session pm w =
    (Returns (next_sid w, set_session_id (next_sid w) pm),
     after_log (Info_session_rotated (next_sid w)) (after_read w)).
Proof. reflexivity. Qed.

Lemma same_config_refl (pm : ProxyManager) : same_config pm pm.
Proof. repeat split. Qed.

Lemma same_config_trans (a b c : ProxyManager) :
  same_config a b -> same_config b c -> same_config a c.
Proof. unfold same_config. intuition congruence. Qed.

Lemma set_session_id_same (sid : string) (pm : ProxyManager) :
  same_config (set_session_id sid pm) pm.
Proof. repeat split. Qed.

Lemma formattable_methods (pm : ProxyManager) :
  formattable pm ->
  (exists u, _build_proxy_username pm = Returns u) /\
  (exists d, get_playwright_proxy pm = Returns d) /\
  (exists d, get_requests_proxy pm = Returns d) /\
  (exists t, info pm = Returns t).
Proof.
  intros [[p Hp] [t Ht]].
  assert (U : exists u, _build_proxy_username pm = Returns u).
  { unfold _build_proxy_username, format_int. rewrite Ht.
    repeat match goal with |- context [if ?b then _ else _] => destruct b end;
      simpl; eauto. }
  destruct U as [u U]. split; [eauto |].
  unfold get_playwright_proxy, get_requests_proxy, info, format_int. rewrite U, Hp.
  repeat split;
    repeat match goal with |- context [if ?b then _ else _] => destruct b end;
    simpl; eauto.
Qed.

(** The methods that read return or raise [ValueError]. *)
Lemma method_outcomes (pm : ProxyManager) :
  (_build_proxy_username pm = Raises ValueError \/
   exists u, _build_proxy_username pm = Returns u) /\
  (get_playwright_proxy pm = Raises ValueError \/
   exists d, get_playwright_proxy pm = Returns d) /\
  (get_requests_proxy pm = Raises ValueError \/
   exists d, get_requests_proxy pm = Returns d) /\
  (info pm = Raises ValueError \/ exists t, info pm = Returns t).
Proof.
  assert (U := build_username_outcome pm).
  unfold get_playwright_proxy, get_requests_proxy, info.
  destruct (format_int_outcome (port pm)) as [(t & _ & ->) | [_ ->]];
    destruct U as [[u ->] | ->];
    repeat split;
    repeat match goal with |- context [if ?b then _ else _] => destruct b end;
    simpl; eauto.
Qed.

(** A step that is not a rotation leaves the instance and the world as
    they are, whether it returns or raises. *)
Lemma step_read_only (o : op) (pm : ProxyManager) (w : world) :
  o <> Rotate_session ->
  step o pm w = (Returns pm, w) \/ step o pm w = (Raises ValueError, w).
Proof.
  destruct (method_outcomes pm) as (U & P & R & I).
  destruct o; intros H; [contradiction | left; reflexivity | ..];
    unfold step, bind, lift, ret.
  - destruct U as [-> | [u ->]]; auto.
  - destruct P as [-> | [u ->]]; auto.
  - destruct R as [-> | [u ->]]; auto.
  - destruct I as [-> | [u ->]]; auto.
Qed.

Lemma step_read_only_formattable (o : op) (pm : ProxyManager) (w : world) :
  o <> Rotate_session -> formattable pm -> step o pm w = (Returns pm, w).
Proof.
  intros H F. destruct (formattable_methods pm F) as ([u U] & [d P] & [d' R] & [t I]).
  destruct o; [contradiction | reflexivity | ..]; unfold step, bind, lift, ret.
  - rewrite U. reflexivity.
  - rewrite P. reflexivity.
  - rewrite R. reflexivity.
  - rewrite I. reflexivity.
Qed.

Lemma step_rotate (pm : ProxyManager) (w : world) :
  step Rotate_session pm w =
    (Returns (set_session_id (next_sid w) pm),
     after_log (Info_session_rotated (next_sid w)) (after_read w)).
Proof. reflexivity. Qed.

Lemma run_read_only (ops : list op) (pm : ProxyManager) (w : world) :
  ~ In Rotate_session ops ->
  run ops pm w = (Returns pm, w) \/ run ops pm w = (Raises ValueError, w).
Proof.
  induction ops as [| o rest IH]; simpl; intros H; [left; reflexivity |].
  unfold bind.
  destruct (step_read_only o pm w) as [-> | ->];
    [intros ->; apply H; left; reflexivity | | right; reflexivity].
  apply IH. intros Hin. apply H. right. exact Hin.
Qed.


Lemma same_config_formattable (a b : ProxyManager) :
  same_config a b -> formattable b -> formattable a.
Proof.
  intros (_ & _ & Hp & _ & _ & _ & _ & Ht & _) [F1 F2].
  unfold formattable. rewrite Hp, Ht. split; assumption.
Qed.

(** What a sequence of operations returns keeps the configuration, and
    its session id is still a token of twelve characters. *)
Lemma run_returns (ops : list op) (pm pm' : ProxyManager) (w w' : world) :
  run ops pm w = (Returns pm', w') ->
  same_config pm' pm /\
  (String.length (_session_id pm) = 12 -> String.length (_session_id pm') = 12).
Proof.
  revert pm w. induction ops as [| o rest IH]; intros pm w; simpl.
  - intros [= <- <-]. split; [apply same_config_refl | tauto].
  - unfold bind. destruct o.
    + rewrite step_rotate. intros E. destruct (IH _ _ E) as [S L].
      split; [exact (same_config_trans _ _ _ S (set_session_id_same _ pm)) |].
      intros _. apply L. change (String.length (next_sid w) = 12). apply next_sid_token.
    + simpl. apply IH.
    + destruct (step_read_only Build_proxy_username pm w) as [-> | ->];
        [discriminate | apply IH | discriminate].
    + destruct (step_read_only Get_playwright_proxy pm w) as [-> | ->];
        [discriminate | apply IH | discriminate].
    + destruct (step_read_only Get_requests_proxy pm w) as [-> | ->];
        [discriminate | apply IH | discriminate].
    + destruct (step_read_only Info pm w) as [-> | ->];
        [discriminate | apply IH | discriminate].
Qed.

(** A sequence of operations on an instance whose integers can be written
    returns. *)
Lemma run_formattable (ops : list op) (pm : ProxyManager) (w : world) :
  formattable pm -> exists pm' w', run ops pm w = (Returns pm', w').
Proof.
  revert pm w. induction ops as [| o rest IH]; intros pm w F; simpl.
  - eauto.
  - unfold bind. destruct o;
      try (rewrite step_read_only_formattable by (discriminate || exact F); apply IH, F).
    rewrite step_rotate. apply IH.
    exact (same_config_formattable _ _ (set_session_id_same _ pm) F).
Qed.

(** A sequence of operations that raises has run up to an operation that
    reads and raised [ValueError], leaving the instance and the world as
    the operations before it made them. *)
Lemma run_raises (ops : list op) (pm : ProxyManager) (w w' : world) (e : exn) :
  run ops pm w = (Raises e, w') ->
  e = ValueError /\
  exists ops1 o ops2 pm1,
    ops = (ops1 ++ o :: ops2)%list /\ o <> Rotate_session /\
    run ops1 pm w = (Returns pm1, w') /\
    step o pm1 w' = (Raises ValueError, w').
Proof.
  revert pm w. induction ops as [| o rest IH]; intros pm w; simpl; [discriminate |].
  unfold bind.
  assert (R : forall pm1 w1,
             step o pm w = (Returns pm1, w1) ->
             run rest pm1 w1 = (Raises e, w') ->
             e = ValueError /\
             exists ops1 o' ops2 pm2,
               o :: rest = (ops1 ++ o' :: ops2)%list /\ o' <> Rotate_session /\
               run ops1 pm w = (Returns pm2, w') /\
               step o' pm2 w' = (Raises ValueError, w')).
  { intros pm1 w1 Hs Hr. destruct (IH _ _ Hr) as (-> & ops1 & o' & ops2 & pm2 & -> & Ho & Hrun & Hst).
    split; [reflexivity |]. exists (o :: ops1), o', ops2, pm2.
    split; [reflexivity |]. split; [exact Ho |]. split; [| exact Hst].
    simpl. unfold bind. rewrite Hs. exact Hrun. }
  destruct o.
  - rewrite step_rotate. intros H. exact (R _ _ (step_rotate pm w) H).
  - intros H. exact (R pm w eq_refl H).
  - destruct (step_read_only Build_proxy_username pm w) as [E | E]; [discriminate | |];
      rewrite E; intros H; [exact (R _ _ E H) |].
    injection H as <- <-. split; [reflexivity |].
    exists [], Build_proxy_username, rest, pm. repeat split; [discriminate | exact E].
  - destruct (step_read_only Get_playwright_proxy pm w) as [E | E]; [discriminate | |];
      rewrite E; intros H; [exact (R _ _ E H) |].
    injection H as <- <-. split; [reflexivity |].
    exists [], Get_playwright_proxy, rest, pm. repeat split; [discriminate | exact E].
  - destruct (step_read_only Get_requests_proxy pm w) as [E | E]; [discriminate | |];
      rewrite E; intros H; [exact (R _ _ E H) |].
    injection H as <- <-. split; [reflexivity |].
    exists [], Get_requests_proxy, rest, pm. repeat split; [discriminate | exact E].
  - destruct (step_read_only Info pm w) as [E | E]; [discriminate | |];
      rewrite E; intros H; [exact (R _ _ E H) |].
    injection H as <- <-. split; [reflexivity |].
    exists [], Info, rest, pm. repeat split; [discriminate | exact E].
Qed.

Lemma run_not_off_type (ops : list op) (pm : ProxyManager) (w w' : world) (attr : string) :
  run ops pm w <> (OffType attr, w').
Proof.
  revert pm w. induction ops as [| o rest IH]; intros pm w; simpl; [discriminate |].
  unfold bind. destruct o.
  - rewrite step_rotate. apply IH.
  - simpl. apply IH.
  - destruct (step_read_only Build_proxy_username pm w) as [-> | ->];
      [discriminate | apply IH | discriminate].
  - destruct (step_read_only Get_playwright_proxy pm w) as [-> | ->];
      [discriminate | apply IH | discriminate].
  - destruct (step_read_only Get_requests_proxy pm w) as [-> | ->];
      [discriminate | apply IH | discriminate].
  - destruct (step_read_only Info pm w) as [-> | ->];
      [discriminate | apply IH | discriminate].
Qed.

End Rotation.


Section Invariants.

Lemma py_or_empty_result (a b : pyval) :
  py_or a b = VStr "" -> truthy a = false /\ b = VStr "".
Proof.
  unfold py_or. destruct (truthy a) eqn:T; intros H; [| split; [reflexivity | exact H]].
  rewrite H in T. discriminate.
Qed.

Lemma py_or_zero_result (a b : pyval) :
  py_or a b = VInt 0 -> truthy a = false /\ b = VInt 0.
Proof.
  unfold py_or. destruct (truthy a) eqn:T; intros H; [| split; [reflexivity | exact H]].
  rewrite H in T. discriminate.
Qed.

Lemma table_host_empty (p : string) : table_host p = VStr "" -> known_provider p = false.
Proof.
  intros H. destruct (table_typed p) as (h & z & Hh & _ & K & _).
  destruct (known_provider p); [| reflexivity].
  destruct (K eq_refl) as [Hne _]. congruence.
Qed.

Lemma table_port_zero (p : string) : table_port p = VInt 0 -> known_provider p = false.
Proof.
  intros H. destruct (table_typed p) as (h & z & _ & Hz & K & _).
  destruct (known_provider p); [| reflexivity].
  destruct (K eq_refl) as [_ Hne]. congruence.
Qed.

End Invariants.

Lemma invariant_of_constructed
    (a_provider a_host a_port a_username a_password a_country
       a_sticky a_ttl a_enabled : pyval)
    (w w1 : world) (pm pm' : ProxyManager) :
  __init__ a_provider a_host a_port a_username a_password a_country
           a_sticky a_ttl a_enabled w = (Returns pm, w1) ->
  (same_config pm' pm /\
   (String.length (_session_id pm) = 12 -> String.length (_session_id pm') = 12)) ->
  instance_invariant a_host a_port pm'.
Proof.
  intros H [S L]. apply init_inv in H.
  destruct H as (p & c & u & pw & st & ttl & en & h & z
                 & _ & _ & _ & _ & _ & _ & _ & Hh & Hz & _ & ->).
  destruct S as (Sp & Shost & Sport & _ & _ & Sc & _ & _ & _).
  cbn [provider host port country] in Sp, Shost, Sport, Sc.
  unfold instance_invariant. rewrite Sp, Sc, Shost, Sport.
  split.
  { apply length_12_nonempty, L. change (String.length (next_sid w) = 12).
    apply next_sid_token. }
  destruct (normalised p) as [P1 P2]. destruct (normalised c) as [C1 C2].
  do 4 (split; [assumption |]).
  split; intros ->; right.
  - apply py_or_empty_result in Hh. destruct Hh as [T Hh].
    split; [exact (table_host_empty _ Hh) | exact T].
  - apply py_or_zero_result in Hz. destruct Hz as [T Hz].
    split; [exact (table_port_zero _ Hz) | exact T].
Qed.

(** C9. Take any instance the constructor returns, on arguments of any
    type, and run any sequence of operations on it. Whenever the sequence
    returns, the instance it leaves satisfies the invariants: the session
    id is not empty; the provider and the country are lower-case and have
    no white space at either end; the host is empty only if the instance is
    disabled or the provider is outside the table and the host argument was
    falsy (not supplied); the port is zero only if the instance is disabled
    or the provider is outside the table and the port argument was falsy.
    The sequence returns when the port and the lifetime can be written.
    When it raises, it raises [ValueError] from an operation that reads,
    and the instance that the operations before it left, which is the
    instance at that point, satisfies the invariants. *)
Theorem C9_invariants
    (a_provider a_host a_port a_username a_password a_country
       a_sticky a_ttl a_enabled : pyval)
    (w w1 : world) (pm : ProxyManager) (ops : list op) :
  __init__ a_provider a_host a_port a_username a_password a_country
           a_sticky a_ttl a_enabled w = (Returns pm, w1) ->
  (forall pm' w2,
      run ops pm w1 = (Returns pm', w2) -> instance_invariant a_host a_port pm') /\
  (formattable pm -> exists pm' w2, run ops pm w1 = (Returns pm', w2)) /\
  (forall e w2,
      run ops pm w1 = (Raises e, w2) ->
      e = ValueError /\
      exists ops1 o ops2 pm1,
        ops = (ops1 ++ o :: ops2)%list /\
        run ops1 pm w1 = (Returns pm1, w2) /\
        step o pm1 w2 = (Raises ValueError, w2) /\
        instance_invariant a_host a_port pm1) /\
  (forall attr w2, run ops pm w1 <> (OffType attr, w2)).
Proof.
  intros H. split; [| split; [| split]].
  - intros pm' w2 E.
    exact (invariant_of_constructed _ _ _ _ _ _ _ _ _ _ _ _ _ H (run_returns _ _ _ _ _ E)).
  - apply run_formattable.
  - intros e w2 E.
    destruct (run_raises _ _ _ _ _ E) as (-> & ops1 & o & ops2 & pm1 & -> & _ & E1 & E2).
    split; [reflexivity |]. exists ops1, o, ops2, pm1.
    do 3 (split; [reflexivity || assumption |]).
    exact (invariant_of_constructed _ _ _ _ _ _ _ _ _ _ _ _ _ H (run_returns _ _ _ _ _ E1)).
  - intros attr w2. apply run_not_off_type.
Qed.

(* ===================================================================== *)
(** ** Failures of the factories                                          *)
(* ===================================================================== *)

Section Failures.

Lemma env_int_ok_iff (env : gmap string string) (k dflt : string) :
  is_Some (Py.int_of_str dflt) ->
  env_int_ok env k <-> is_Some (Py.int_of_str (getenv env k dflt)).
Proof.
  intros Hd. unfold env_int_ok, getenv, dict_get.
  destruct (env !! k) as [v |]; simpl; split.
  - intros [? | (v' & z & [= <-] & ->)]; [discriminate | eauto].
  - intros [z Hz]. right. eauto.
  - intros _. exact Hd.
  - intros _. left. reflexivity.
Qed.

(** [from_env] does not read the log: logging before the call changes
    neither its outcome nor what it draws. *)
Lemma from_env_after_log (env : gmap string string) (r : log_record) (w : world) :
  from_env env (after_log r w) =
    (fst (from_env env w), after_log r (snd (from_env env w))).
Proof.
  unfold from_env. destruct (flag (getenv env "PROXY_ENABLED" "false")); simpl.
  - unfold bind, py_int.
    destruct (Py.int_of_str (getenv env "PROXY_PORT" "0")) as [pt |]; [| reflexivity].
    destruct (Py.int_of_str (getenv env "PROXY_STICKY_TTL" "10")) as [tl |]; [| reflexivity].
    unfold ret.
    match goal with |- cls ?k _ = _ =>
      destruct (cls_returns k w) as (h & z & Hh & Hz & ->);
      destruct (cls_returns k (after_log r w)) as (h' & z' & Hh' & Hz' & ->) end.
    rewrite Hh in Hh'. rewrite Hz in Hz'. injection Hh' as <-. injection Hz' as <-.
    reflexivity.
  - rewrite !cls_disabled. reflexivity.
Qed.

Lemma from_config_load_failure (env : gmap string string) (w : world) :
  from_config env None w =
    (fst (from_env env w),
     after_log Warning_could_not_load_config (snd (from_env env w))).
Proof.
  unfold from_config, bind. simpl.
  fold (after_log Warning_could_not_load_config w).
  apply from_env_after_log.
Qed.

End Failures.

(** C3. When the configuration cannot be loaded, [from_config] ends as
    [from_env] does on the same environment variables and the same entropy:
    with the same instance, session id included, or with the same
    exception. The world it leaves differs from the one [from_env] leaves
    by the warning in the log alone. *)
Theorem C3_load_failure_falls_back (env : gmap string string) (w : world) :
  from_config env None w =
    (fst (from_env env w),
     after_log Warning_could_not_load_config (snd (from_env env w))).
Proof. exact (from_config_load_failure env w). Qed.

Section Constructor_failures.

(** The constructor raises only from the two calls of [lower]. *)
Lemma init_no_raise (p c : string) (a_host a_port a_username a_password
                     a_sticky a_ttl a_enabled : pyval) (w : world) :
  ~ raises (__init__ (VStr p) a_host a_port a_username a_password (VStr c)
                     a_sticky a_ttl a_enabled w).
Proof.
  intros [e H]. revert H. unfold __init__, bind. simpl.
  destruct a_username; simpl; try discriminate.
  destruct a_password; simpl; try discriminate.
  destruct a_sticky; simpl; try discriminate.
  destruct a_ttl; simpl; try discriminate.
  destruct a_enabled; simpl; try discriminate.
  destruct (py_or a_host _); simpl; try discriminate.
  destruct (py_or a_port _); simpl; discriminate.
Qed.

Lemma init_raises_provider (v a_host a_port a_username a_password a_country
                            a_sticky a_ttl a_enabled : pyval) (w : world) :
  is_str v = false ->
  __init__ v a_host a_port a_username a_password a_country
           a_sticky a_ttl a_enabled w = (Raises AttributeError, w).
Proof. destruct v; intros H; try discriminate; reflexivity. Qed.

Lemma init_raises_country (p : string) (v a_host a_port a_username a_password
                           a_sticky a_ttl a_enabled : pyval) (w : world) :
  is_str v = false ->
  __init__ (VStr p) a_host a_port a_username a_password v
           a_sticky a_ttl a_enabled w = (Raises AttributeError, w).
Proof. destruct v; intros H; try discriminate; reflexivity. Qed.

Lemma is_str_inv (v : pyval) : is_str v = true -> exists s, v = VStr s.
Proof. destruct v; try discriminate. eauto. Qed.

Lemma py_or_is_str (v : pyval) (s : string) :
  is_str (py_or v (VStr s)) = true <-> truthy v = false \/ is_str v = true.
Proof.
  unfold py_or. destruct (truthy v); simpl; split; auto.
  intros [? | ?]; [discriminate | assumption].
Qed.

End Constructor_failures.

Section Factory_failures.

Variable env : gmap string string.

Lemma dict_get_Some {V : Type} (d : gmap string V) (k : string) (dflt v : V) :
  d !! k = Some v -> dict_get d k dflt = v.
Proof. intros H. unfold dict_get. rewrite H. reflexivity. Qed.

Lemma dict_get_None {V : Type} (d : gmap string V) (k : string) (dflt : V) :
  d !! k = None -> dict_get d k dflt = dflt.
Proof. intros H. unfold dict_get. rewrite H. reflexivity. Qed.

(** [from_config] on a loaded document, with the calls of [get] done. *)
Lemma from_config_loaded (cfg : pyval) (w : world) :
  from_config env (Some cfg) w =
    match cfg with
    | VDict d =>
        match dict_get d "proxy" (VDict ∅) with
        | VDict pc =>
            if truthy (dict_get pc "enabled" (VBool false))
            then __init__ (dict_get pc "provider" (VStr "brightdata"))
                          (dict_get pc "host" (VStr ""))
                          (dict_get pc "port" (VInt 0))
                          (py_or (dict_get pc "username" (VStr ""))
                                 (VStr (getenv env "PROXY_USERNAME" "")))
                          (py_or (dict_get pc "password" (VStr ""))
                                 (VStr (getenv env "PROXY_PASSWORD" "")))
                          (py_or (dict_get pc "country" (VStr ""))
                                 (VStr (getenv env "PROXY_COUNTRY" "")))
                          (dict_get pc "sticky" (VBool true))
                          (dict_get pc "sticky_ttl_minutes" (VInt 10))
                          (VBool true) w
            else cls (kw.set_enabled false kw.dflt) w
        | _ => (Raises AttributeError, w)
        end
    | _ => (Raises AttributeError, w)
    end.
Proof.
  destruct cfg as [| | | | | |d]; try reflexivity.
  unfold from_config, bind. simpl.
  destruct (dict_get d "proxy" (VDict ∅)) as [| | | | | |pc]; try reflexivity.
  simpl. destruct (truthy (dict_get pc "enabled" (VBool false))); reflexivity.
Qed.

Lemma from_config_accepted (cfg : pyval) (w : world) :
  config_accepted cfg -> ~ raises (from_config env (Some cfg) w).
Proof.
  intros (d & -> & H). rewrite from_config_loaded.
  assert (D : ~ raises (cls (kw.set_enabled false kw.dflt) w)).
  { rewrite cls_disabled. intros [e He]. discriminate. }
  destruct H as [Hd | (pc & Hd & H)].
  - rewrite (dict_get_None d "proxy" _ Hd).
    change (dict_get ∅ "enabled" (VBool false)) with (VBool false). exact D.
  - rewrite (dict_get_Some d "proxy" _ _ Hd).
    destruct H as [-> | (Hp & Hc)]; [exact D |].
    destruct (truthy (dict_get pc "enabled" (VBool false))); [| exact D].
    apply is_str_inv in Hp. destruct Hp as [p ->].
    apply (py_or_is_str _ (getenv env "PROXY_COUNTRY" "")) in Hc.
    apply is_str_inv in Hc. destruct Hc as [c ->].
    apply init_no_raise.
Qed.

Lemma from_config_rejected (cfg : pyval) (w : world) :
  ~ config_accepted cfg ->
  from_config env (Some cfg) w = (Raises AttributeError, w).
Proof.
  intros H. rewrite from_config_loaded.
  destruct cfg as [| | | | | |d]; try reflexivity.
  destruct (d !! "proxy") as [v |] eqn:Hd.
  2: { exfalso. apply H. exists d. split; [reflexivity |]. left. exact Hd. }
  rewrite (dict_get_Some d "proxy" _ _ Hd).
  destruct v as [| | | | | |pc]; try reflexivity.
  assert (A : forall P : Prop,
             (truthy (dict_get pc "enabled" (VBool false)) = false \/
              (is_str (dict_get pc "provider" (VStr "brightdata")) = true /\
               (truthy (dict_get pc "country" (VStr "")) = false \/
                is_str (dict_get pc "country" (VStr "")) = true))) -> P).
  { intros P HP. exfalso. apply H. exists d. split; [reflexivity |]. right.
    exists pc. split; [exact Hd | exact HP]. }
  destruct (truthy (dict_get pc "enabled" (VBool false))) eqn:En;
    [| apply A; left; reflexivity].
  destruct (is_str (dict_get pc "provider" (VStr "brightdata"))) eqn:Hp.
  - apply is_str_inv in Hp. destruct Hp as [p Hp]. rewrite Hp.
    apply init_raises_country.
    destruct (is_str (py_or (dict_get pc "country" (VStr ""))
                            (VStr (getenv env "PROXY_COUNTRY" "")))) eqn:Hc;
      [| reflexivity].
    apply py_or_is_str in Hc. apply A. right. split; [reflexivity | exact Hc].
  - apply init_raises_provider. exact Hp.
Qed.

Lemma from_env_accepted (w : world) :
  env_accepted env -> exists pm, from_env env w = (Returns pm, after_read w).
Proof.
  intros H.
  destruct (flag (getenv env "PROXY_ENABLED" "false")) eqn:F.
  - destruct H as [H | [Hp Ht]]; [apply env_disabled_flag in H; congruence |].
    apply (env_int_ok_iff env "PROXY_PORT" "0") in Hp; [| vm_compute; eauto].
    apply (env_int_ok_iff env "PROXY_STICKY_TTL" "10") in Ht; [| vm_compute; eauto].
    destruct Hp as [pt Hp]. destruct Ht as [tl Ht].
    unfold from_env. rewrite F. simpl. unfold bind, py_int. rewrite Hp, Ht. unfold ret.
    match goal with |- context [cls ?k w] =>
      destruct (cls_returns k w) as (h & z & _ & _ & ->) end.
    eexists. reflexivity.
  - apply env_disabled_flag in F. rewrite (from_env_disabled env w F), cls_disabled.
    eexists. reflexivity.
Qed.

Lemma from_env_rejected (w : world) :
  ~ env_accepted env -> from_env env w = (Raises ValueError, w).
Proof.
  intros H.
  destruct (flag (getenv env "PROXY_ENABLED" "false")) eqn:F.
  2: { exfalso. apply H. left. apply env_disabled_flag. exact F. }
  unfold from_env. rewrite F. simpl. unfold bind, py_int.
  destruct (Py.int_of_str (getenv env "PROXY_PORT" "0")) as [pt |] eqn:Hp; [| reflexivity].
  destruct (Py.int_of_str (getenv env "PROXY_STICKY_TTL" "10")) as [tl |] eqn:Ht;
    [| reflexivity].
  exfalso. apply H. right. split.
  - apply (env_int_ok_iff env "PROXY_PORT" "0"); [vm_compute; eauto | rewrite Hp; eauto].
  - apply (env_int_ok_iff env "PROXY_STICKY_TTL" "10"); [vm_compute; eauto | rewrite Ht; eauto].
Qed.

(** The defaults of the two integer variables on the enabled path. *)
Lemma from_env_int_defaults (w w' : world) (pm : ProxyManager) :
  from_env env w = (Returns pm, w') -> enabled pm = true ->
  (env !! "PROXY_STICKY_TTL" = None -> sticky_ttl_minutes pm = 10%Z) /\
  (env !! "PROXY_PORT" = None -> VInt (port pm) = table_port (provider pm)).
Proof.
  intros H En. pose proof (from_env_returns_enabled env w w' pm H) as F.
  rewrite En in F. symmetry in F. revert H.
  unfold from_env. rewrite F. simpl. unfold bind, py_int.
  destruct (Py.int_of_str (getenv env "PROXY_PORT" "0")) as [pt |] eqn:Hp; [| discriminate].
  destruct (Py.int_of_str (getenv env "PROXY_STICKY_TTL" "10")) as [tl |] eqn:Ht;
    [| discriminate].
  unfold ret.
  match goal with |- cls ?k w = _ -> _ =>
    destruct (cls_returns k w) as (h & z & _ & Hz & ->) end.
  intros [= <- _]. cbn [sticky_ttl_minutes port provider kw.port kw.provider] in *.
  split; intros U.
  - unfold getenv, dict_get in Ht. rewrite U in Ht. vm_compute in Ht. congruence.
  - unfold getenv, dict_get in Hp. rewrite U in Hp. simpl in Hp.
    assert (pt = 0%Z) as -> by (vm_compute in Hp; congruence).
    rewrite py_or_zero in Hz. symmetry. exact Hz.
Qed.

End Factory_failures.

(** C1 (as amended). [from_env] returns an instance when [PROXY_ENABLED]
    is unset or falsy, or when [PROXY_PORT] and [PROXY_STICKY_TTL] are each
    unset or a base-10 integer literal, and raises [ValueError] otherwise;
    on the enabled path an unset [PROXY_STICKY_TTL] gives the lifetime 10
    and an unset [PROXY_PORT] gives the constructor the port 0, which it
    resolves from the table. [from_config] on a loaded document does not
    raise when the document is an object whose [proxy] section is missing,
    or is an object in which [enabled] is missing or falsy or in which
    [provider] is missing or a string and [country] is missing, falsy or a
    string, and raises [AttributeError] otherwise; when the document cannot
    be loaded it returns or raises as [from_env] does. *)
Theorem C1_construction_raises :
  (forall (env : gmap string string) (w : world),
      (env_accepted env -> exists pm, from_env env w = (Returns pm, after_read w)) /\
      (~ env_accepted env -> from_env env w = (Raises ValueError, w))) /\
  (forall (env : gmap string string) (w w' : world) (pm : ProxyManager),
      from_env env w = (Returns pm, w') -> enabled pm = true ->
      (env !! "PROXY_STICKY_TTL" = None -> sticky_ttl_minutes pm = 10%Z) /\
      (env !! "PROXY_PORT" = None -> VInt (port pm) = table_port (provider pm))) /\
  (forall (env : gmap string string) (cfg : pyval) (w : world),
      (config_accepted cfg -> ~ raises (from_config env (Some cfg) w)) /\
      (~ config_accepted cfg ->
       from_config env (Some cfg) w = (Raises AttributeError, w))) /\
  (forall (env : gmap string string) (w : world),
      (env_accepted env -> exists pm, fst (from_config env None w) = Returns pm) /\
      (~ env_accepted env -> fst (from_config env None w) = Raises ValueError)).
Proof.
  split; [| split; [| split]].
  - intros env w. split; [apply from_env_accepted | apply from_env_rejected].
  - intros env w w' pm. apply from_env_int_defaults.
  - intros env cfg w. split; [apply from_config_accepted | apply from_config_rejected].
  - intros env w. rewrite from_config_load_failure. cbn [fst]. split; intros H.
    + destruct (from_env_accepted env w H) as [pm ->]. exists pm. reflexivity.
    + rewrite (from_env_rejected env w H). reflexivity.
Qed.

(** C1, as the spec states it, fails: a non-numeric [PROXY_PORT] makes
    [from_env] raise [ValueError], and a [provider] that is not a string
    makes [from_config] raise [AttributeError]. *)
Lemma C1_counterexample :
  from_env {[ "PROXY_ENABLED" := "true"; "PROXY_PORT" := "abc" ]} sample_world
    = (Raises ValueError, sample_world) /\
  from_config ∅ (Some (VDict {[ "proxy" :=
                   VDict {[ "enabled" := VBool true; "provider" := VInt 5 ]} ]}))
              sample_world
    = (Raises AttributeError, sample_world).
Proof. split; vm_compute; reflexivity. Qed.

(* ===================================================================== *)
(** ** The theorems at concrete inputs                                    *)
(* ===================================================================== *)

Lemma C6_username_unchanged_witness :
  _build_proxy_username
    (sample_instance "stormproxies" "rotating.stormproxies.com" 9999 15) = Returns "u" /\
  _build_proxy_username (sample_instance "custom" "10.0.0.1" 8080 15) = Returns "u".
Proof.
  split.
  - apply (C6_username_unchanged
             (sample_instance "stormproxies" "rotating.stormproxies.com" 9999 15)).
    left. reflexivity.
  - apply (C6_username_unchanged (sample_instance "custom" "10.0.0.1" 8080 15)).
    right. reflexivity.
Defined.

Lemma C7_requests_proxy_witness :
  (exists m : gmap string string,
      get_requests_proxy (sample_instance "iproyal" "proxy.iproyal.com" 12321 15)
        = Returns (Some m) /\
      m !! "http" =
        Some "http://u_country-us_session-9daa622090a4_sessTime-15:p@proxy.iproyal.com:12321" /\
      m !! "https" =
        Some "http://u_country-us_session-9daa622090a4_sessTime-15:p@proxy.iproyal.com:12321" /\
      (forall k, k <> "http" -> k <> "https" -> m !! k = None)) /\
  get_requests_proxy sample_long_port = Raises ValueError.
Proof.
  split.
  - apply (proj1 (C7_requests_proxy (sample_instance "iproyal" "proxy.iproyal.com" 12321 15)
                    eq_refl ltac:(discriminate))
                 "u_country-us_session-9daa622090a4_sessTime-15" "12321"); reflexivity.
  - apply (proj2 (C7_requests_proxy sample_long_port eq_refl ltac:(discriminate))).
    right. exact over_limit_unwritable.
Defined.

Lemma C9_invariants_witness :
  exists pm' w2,
    run [Rotate_session; Get_requests_proxy; Info]
        (sample_instance "iproyal" "proxy.iproyal.com" 12321 15)
        (after_read sample_world) = (Returns pm', w2) /\
    instance_invariant (VStr "") (VInt 0) pm'.
Proof.
  destruct (C9_invariants (VStr " IPRoyal") (VStr "") (VInt 0) (VStr "u") (VStr "p")
              (VStr "US ") (VBool true) (VInt 15) (VBool true)
              sample_world (after_read sample_world)
              (sample_instance "iproyal" "proxy.iproyal.com" 12321 15)
              [Rotate_session; Get_requests_proxy; Info])
    as (I & R & _).
  - vm_compute. reflexivity.
  - destruct R as (pm' & w2 & E).
    + split; vm_compute; eauto.
    + exists pm', w2. split; [exact E | exact (I pm' w2 E)].
Defined.

Lemma C10_disabled_factory_instance_witness :
  provider sample_disabled = "brightdata" /\
  host sample_disabled = "brd.superproxy.io" /\ port sample_disabled = 22225%Z /\
  host sample_disabled <> "" /\ outputs_absent sample_disabled /\
  (forall q : ProxyManager,
      host q = host sample_disabled -> enabled q = true ->
      get_playwright_proxy q <> Returns None /\ get_requests_proxy q <> Returns None).
Proof.
  apply (C10_disabled_factory_instance
           {[ "PROXY_ENABLED" := "no"; "PROXY_PORT" := "abc" ]} None
           sample_world (after_read sample_world) sample_disabled).
  - left. vm_compute. reflexivity.
  - reflexivity.
Defined.

(* ===================================================================== *)
(** ** Further properties: the two descriptors                           *)
(* ===================================================================== *)

(** X1. On an enabled instance with a non-empty host,
    [get_playwright_proxy] returns, when the port can be written and the
    user name is formatted, a mapping with exactly the keys [server],
    [username] and [password]: the server is [http://<host>:<port>] and
    carries no credential, the user name is the formatted one, the password
    is the raw one. When the port has more digits than the interpreter's
    limit, or formatting the user name raises, it raises [ValueError]. *)
Theorem playwright_proxy_descriptor (pm : ProxyManager) :
  enabled pm = true -> host pm <> "" ->
  (forall user port_,
      Py.str_of_int (port pm) = Some port_ ->
      _build_proxy_username pm = Returns user ->
      exists m : gmap string string,
        get_playwright_proxy pm = Returns (Some m) /\
        m !! "server" = Some ("http://" +:+ host pm +:+ ":" +:+ port_) /\
        m !! "username" = Some user /\
        m !! "password" = Some (password pm) /\
        (forall k, k <> "server" -> k <> "username" -> k <> "password" -> m !! k = None)) /\
  (Py.str_of_int (port pm) = None \/ _build_proxy_username pm = Raises ValueError ->
   get_playwright_proxy pm = Raises ValueError).
Proof.
  intros He Hh. unfold get_playwright_proxy, format_int.
  apply String.eqb_neq in Hh. rewrite He, Hh. simpl negb. simpl orb. cbv iota.
  split.
  - intros user port_ -> ->. simpl obind.
    eexists. split; [reflexivity |]. split; [| split; [| split]].
    + apply lookup_insert_eq.
    + rewrite lookup_insert_ne by discriminate. apply lookup_insert_eq.
    + do 2 (rewrite lookup_insert_ne by discriminate). apply lookup_singleton_eq.
    + intros k H1 H2 H3. do 2 (rewrite lookup_insert_ne by congruence).
      apply lookup_singleton_ne. congruence.
  - intros [-> | Hu]; [reflexivity |].
    destruct (Py.str_of_int (port pm)); [| reflexivity]. simpl. rewrite Hu. reflexivity.
Qed.

(** X2. The two output methods agree: one returns the absence value
    exactly when the other does, and when both return a descriptor the URL
    of the HTTP-client mapping is made of the user name, the password and
    the server of the browser descriptor. *)
Theorem outputs_agree (pm : ProxyManager) :
  (get_playwright_proxy pm = Returns None <-> get_requests_proxy pm = Returns None) /\
  (forall mp mr : gmap string string,
      get_playwright_proxy pm = Returns (Some mp) ->
      get_requests_proxy pm = Returns (Some mr) ->
      exists user pw endpoint,
        mp !! "username" = Some user /\ mp !! "password" = Some pw /\
        mp !! "server" = Some ("http://" +:+ endpoint) /\
        mr !! "http" = Some ("http://" +:+ user +:+ ":" +:+ pw +:+ "@" +:+ endpoint) /\
        mr !! "https" = mr !! "http").
Proof.
  split.
  - rewrite playwright_absent_iff, requests_absent_iff. tauto.
  - unfold get_playwright_proxy, get_requests_proxy.
    destruct (negb (enabled pm) || String.eqb (host pm) ""); [discriminate |].
    destruct (format_int (port pm)) as [port_ | |];
      destruct (_build_proxy_username pm) as [user | |]; simpl; try discriminate.
    intros mp mr [= <-] [= <-].
    exists user, (password pm), (host pm +:+ ":" +:+ port_).
    split; [| split; [| split; [| split]]].
    + rewrite lookup_insert_ne by discriminate. apply lookup_insert_eq.
    + do 2 (rewrite lookup_insert_ne by discriminate). apply lookup_singleton_eq.
    + apply lookup_insert_eq.
    + apply lookup_insert_eq.
    + rewrite lookup_insert_eq, lookup_insert_ne by discriminate.
      apply lookup_singleton_eq.
Qed.

(** X3. A direct construction that is enabled and names one of the four
    providers of the table never makes an output method return the absence
    value, whatever host and port it is given: each returns a descriptor
    when the port and the lifetime can be written, and raises [ValueError]
    otherwise. *)
Theorem known_provider_outputs_present (k : kw.t) (w : world) :
  kw.enabled k = true ->
  known_provider (Py.strip (Py.lower (kw.provider k))) = true ->
  exists pm,
    cls k w = (Returns pm, after_read w) /\
    get_playwright_proxy pm <> Returns None /\ get_requests_proxy pm <> Returns None /\
    (get_playwright_proxy pm = Raises ValueError \/
     exists mp, get_playwright_proxy pm = Returns (Some mp)) /\
    (get_requests_proxy pm = Raises ValueError \/
     exists mr, get_requests_proxy pm = Returns (Some mr)) /\
    (formattable pm ->
     exists mp mr, get_playwright_proxy pm = Returns (Some mp) /\
                   get_requests_proxy pm = Returns (Some mr)).
Proof.
  intros He Hk. destruct (cls_returns k w) as (h & z & Hh & _ & E).
  eexists. split; [exact E |].
  match goal with |- ?P ?pm <> _ /\ _ => set (inst := pm) end.
  assert (Hne : h <> "").
  { destruct (table_typed (Py.strip (Py.lower (kw.provider k))))
      as (h0 & z0 & Th & _ & K & _).
    destruct (K Hk) as [Hh0 _]. rewrite Th, py_or_str in Hh. injection Hh as <-.
    destruct (String.eqb_spec (kw.host k) ""); assumption. }
  assert (NP : get_playwright_proxy inst <> Returns None).
  { intros Habs. apply playwright_absent_iff in Habs. cbn [inst enabled host] in Habs.
    destruct Habs; congruence. }
  assert (NR : get_requests_proxy inst <> Returns None).
  { intros Habs. apply requests_absent_iff in Habs. cbn [inst enabled host] in Habs.
    destruct Habs; congruence. }
  destruct (method_outcomes inst) as (_ & P & R & _).
  split; [exact NP |]. split; [exact NR |].
  assert (SP : get_playwright_proxy inst = Raises ValueError \/
               exists mp, get_playwright_proxy inst = Returns (Some mp)).
  { destruct P as [-> | [[mp |] Hd]]; [left; reflexivity | right; eauto | contradiction]. }
  assert (SR : get_requests_proxy inst = Raises ValueError \/
               exists mr, get_requests_proxy inst = Returns (Some mr)).
  { destruct R as [-> | [[mr |] Hd]]; [left; reflexivity | right; eauto | contradiction]. }
  split; [exact SP |]. split; [exact SR |].
  intros F. destruct (formattable_methods inst F) as (_ & [dp Hp] & [dr Hr] & _).
  destruct dp as [mp |]; [| contradiction]. destruct dr as [mr |]; [| contradiction].
  eauto.
Qed.

(** X4. A direct construction that is enabled, names a provider outside
    the table and gives no host yields no descriptor, whatever port, user
    name and password it is given: the proxy is silently off. *)
Theorem unknown_provider_outputs_absent (k : kw.t) (w : world) :
  known_provider (Py.strip (Py.lower (kw.provider k))) = false ->
  kw.host k = "" ->
  exists pm,
    cls k w = (Returns pm, after_read w) /\ enabled pm = kw.enabled k /\
    host pm = "" /\ outputs_absent pm.
Proof.
  intros Hk Hhost. destruct (cls_returns k w) as (h & z & Hh & _ & E).
  eexists. split; [exact E |]. cbn [enabled host].
  rewrite Hhost, py_or_empty_str, (table_host_unknown _ Hk) in Hh. injection Hh as <-.
  split; [reflexivity |]. split; [reflexivity |].
  apply disabled_outputs_absent. right. reflexivity.
Qed.

(* ===================================================================== *)
(** ** Further properties: normalisation is a fixed point                 *)
(* ===================================================================== *)

Section Fixed_points.

Lemma lstrip_fixed (sp : ascii -> bool) (s : string) :
  (forall c, first_char s = Some c -> sp c = false) -> Py.lstrip_by sp s = s.
Proof.
  destruct s as [| a r]; simpl; [reflexivity |].
  intros H. rewrite (H a eq_refl). reflexivity.
Qed.

Lemma rstrip_fixed (sp : ascii -> bool) (s : string) :
  (forall c, last_char s = Some c -> sp c = false) -> Py.rstrip_by sp s = s.
Proof.
  induction s as [| a r IH]; simpl; [reflexivity |].
  destruct r as [| b r'].
  - intros H. simpl. rewrite (H a eq_refl). reflexivity.
  - intros H. rewrite (IH H). reflexivity.
Qed.

Lemma strip_fixed (s : string) : no_outer_space s -> Py.strip s = s.
Proof.
  intros [Hf Hl]. unfold Py.strip.
  rewrite (lstrip_fixed _ _ Hf). exact (rstrip_fixed _ _ Hl).
Qed.

(** Normalising twice is normalising once. *)
Lemma normalise_idempotent (s : string) :
  Py.strip (Py.lower (Py.strip (Py.lower s))) = Py.strip (Py.lower s).
Proof.
  destruct (normalised s) as [[_ Hlow] Hsp].
  rewrite Hlow. exact (strip_fixed _ Hsp).
Qed.

End Fixed_points.

(** X5. Constructing an instance from the attributes of an instance that
    the constructor returned gives those attributes back: the provider and
    the country are already normalised, and the resolved host and port
    resolve to themselves. Only the session id is drawn anew. *)
Theorem reconstruction_round_trip
    (a_provider a_host a_port a_username a_password a_country
       a_sticky a_ttl a_enabled : pyval)
    (w w1 w2 : world) (pm : ProxyManager) :
  __init__ a_provider a_host a_port a_username a_password a_country
           a_sticky a_ttl a_enabled w = (Returns pm, w1) ->
  exists pm',
    cls (kw_of pm) w2 = (Returns pm', after_read w2) /\
    same_config pm' pm /\ _session_id pm' = next_sid w2.
Proof.
  intros H. apply init_inv in H.
  destruct H as (p & c & u & pw & st & ttl & en & h & z
                 & _ & _ & _ & _ & _ & _ & _ & Hh & Hz & _ & ->).
  destruct (cls_returns (kw_of {| provider := Py.strip (Py.lower p); username := u;
      password := pw; country := Py.strip (Py.lower c); sticky := st;
      sticky_ttl_minutes := ttl; enabled := en; host := h; port := z;
      _session_id := next_sid w |}) w2) as (h' & z' & Hh' & Hz' & E).
  eexists. split; [exact E |]. split; [| reflexivity].
  cbn [kw_of kw.provider kw.host kw.port kw.country provider host port country] in Hh', Hz' |- *.
  rewrite normalise_idempotent in Hh', Hz'.
  destruct (table_typed (Py.strip (Py.lower p))) as (h0 & z0 & Th & Tz & _).
  rewrite Th, py_or_str in Hh'. rewrite Tz, py_or_int in Hz'.
  injection Hh' as <-. injection Hz' as <-.
  unfold same_config. cbn. rewrite !normalise_idempotent.
  repeat split.
  - destruct (String.eqb_spec h "") as [-> |]; [| reflexivity].
    apply py_or_empty_result in Hh. destruct Hh as [_ Hh]. congruence.
  - destruct (Z.eqb_spec z 0) as [-> |]; [| reflexivity].
    apply py_or_zero_result in Hz. destruct Hz as [_ Hz]. congruence.
Qed.

(* ===================================================================== *)
(** ** Further properties: the session token                              *)
(* ===================================================================== *)

Section Tokens.

Lemma take_full (n : nat) (s : string) : String.length s <= n -> Py.take n s = s.
Proof.
  revert s. induction n as [| n IH]; intros [| c r]; simpl; intros H;
    try reflexivity; try lia.
  rewrite IH by lia. reflexivity.
Qed.

Lemma take_append (n : nat) (a b : string) :
  n <= String.length a -> Py.take n (a +:+ b) = Py.take n a.
Proof.
  revert a. induction n as [| n IH]; intros [| c r]; simpl; intros H;
    try reflexivity; try lia.
  rewrite IH by lia. reflexivity.
Qed.

(** The first [j] of [j + m] hexadecimal digits are the digits of the
    number without its [m] low digits. *)
Lemma take_hex_digits (j m : nat) (n : N) :
  Py.take j (Py.hex_digits (j + m) n) = Py.hex_digits j (n / 16 ^ N.of_nat m)%N.
Proof.
  revert n. induction m as [| m IH]; intros n.
  - rewrite Nat.add_0_r, take_full by (rewrite hex_digits_length; lia).
    simpl. rewrite N.div_1_r. reflexivity.
  - rewrite Nat.add_succ_r. simpl Py.hex_digits.
    rewrite take_append by (rewrite hex_digits_length; lia).
    rewrite IH, Nat2N.inj_succ, N.pow_succ_r', N.Div0.div_div by lia.
    reflexivity.
Qed.

(** Forcing the version and the variant touches no bit of the first six
    bytes. *)
Lemma uuid4_int_high (r : N) :
  (Py.uuid4_int r / 2 ^ 80 = first_six_bytes r)%N.
Proof.
  unfold Py.uuid4_int, first_six_bytes.
  rewrite <- !N.shiftr_div_pow2.
  rewrite N.shiftr_lor, N.shiftr_ldiff, N.shiftr_lor, N.shiftr_ldiff.
  change (N.shiftr (N.shiftl 0xc000%N 48) 80) with 0%N.
  change (N.shiftr (N.shiftl 0x8000%N 48) 80) with 0%N.
  change (N.shiftr (N.shiftl 0xf000%N 64) 80) with 0%N.
  change (N.shiftr (N.shiftl 4 76) 80) with 0%N.
  rewrite !N.ldiff_0_r, !N.lor_0_r. reflexivity.
Qed.

Lemma hex_val_char (d : N) : (d < 16)%N -> hex_val (Py.hex_char d) = d.
Proof.
  intros H.
  assert (E : exists k : nat, (k < 16)%nat /\ d = N.of_nat k).
  { exists (N.to_nat d). split; lia. }
  destruct E as (k & Hk & ->).
  do 16 (destruct k as [| k]; [reflexivity |]). lia.
Qed.

Lemma snoc_inj (a b : string) (c d : ascii) :
  a +:+ String c EmptyString = b +:+ String d EmptyString -> a = b /\ c = d.
Proof.
  revert b. induction a as [| x a IH]; intros [| y b]; simpl; intros H.
  - injection H as ->. split; reflexivity.
  - injection H as _ H. destruct b; discriminate.
  - injection H as _ H. destruct a; discriminate.
  - injection H as -> H. destruct (IH b H) as [-> ->]. split; reflexivity.
Qed.

(** Distinct numbers below [16^k] have distinct digits. *)
Lemma hex_digits_inj (k : nat) (a b : N) :
  (a < 16 ^ N.of_nat k)%N -> (b < 16 ^ N.of_nat k)%N ->
  Py.hex_digits k a = Py.hex_digits k b -> a = b.
Proof.
  revert a b. induction k as [| k IH]; intros a b Ha Hb H.
  - simpl in Ha, Hb. lia.
  - rewrite Nat2N.inj_succ, N.pow_succ_r' in Ha, Hb.
    simpl in H. apply snoc_inj in H. destruct H as [Hq Hr].
    apply (f_equal hex_val) in Hr.
    rewrite !hex_val_char in Hr by (apply N.mod_lt; discriminate).
    apply IH in Hq; try (apply N.Div0.div_lt_upper_bound; assumption).
    rewrite (N.div_mod a 16), (N.div_mod b 16) by discriminate.
    rewrite Hq, Hr. reflexivity.
Qed.

Lemma first_six_bytes_bound (r : N) : (first_six_bytes r < 16 ^ N.of_nat 12)%N.
Proof.
  unfold first_six_bytes. apply N.Div0.div_lt_upper_bound.
  change (2 ^ 80 * 16 ^ N.of_nat 12)%N with (2 ^ 128)%N.
  apply N.mod_lt. discriminate.
Qed.

Lemma token_at_hex (w : world) (i : nat) :
  token_at w i = Py.hex_digits 12 (first_six_bytes (urandom w i)).
Proof.
  unfold token_at, Py.uuid_hex.
  change 32 with (12 + 20). rewrite take_hex_digits.
  change (16 ^ N.of_nat 20)%N with (2 ^ 80)%N. rewrite uuid4_int_high. reflexivity.
Qed.

End Tokens.

(** X6. The session token is the hexadecimal writing, on twelve digits, of
    the first six of the sixteen random bytes: the version and variant
    bits that [uuid4] forces never show in it, and the other ten bytes are
    dropped. *)
Theorem session_token_first_six_bytes (w : world) :
  _generate_session_id w =
    (Returns (Py.hex_digits 12 (first_six_bytes (urandom w (reads w)))), after_read w).
Proof.
  rewrite generate_session_id_eq. unfold next_sid.
  fold (token_at w (reads w)). rewrite token_at_hex. reflexivity.
Qed.

Lemma tokens_equal_iff (w w' : world) (i j : nat) :
  token_at w i = token_at w' j <->
  first_six_bytes (urandom w i) = first_six_bytes (urandom w' j).
Proof.
  rewrite !token_at_hex. split.
  - apply hex_digits_inj; apply first_six_bytes_bound.
  - intros ->. reflexivity.
Qed.

(** X7. Two rotations in a row return the same token exactly when the two
    reads of the entropy source they make agree on their first six bytes:
    a rotation changes the session id unless the read repeats those
    bytes. *)
Theorem rotation_repeats_iff (pm : ProxyManager) (w : world) :
  exists t1 pm1 w1 t2 pm2 w2,
    rotate_session pm w = (Returns (t1, pm1), w1) /\
    rotate_session pm1 w1 = (Returns (t2, pm2), w2) /\
    _session_id pm1 = t1 /\ _session_id pm2 = t2 /\
    (t2 = t1 <->
     first_six_bytes (urandom w (S (reads w))) = first_six_bytes (urandom w (reads w))).
Proof.
  do 6 eexists. rewrite !rotate_session_eq.
  split; [reflexivity |]. split; [reflexivity |].
  split; [reflexivity |]. split; [reflexivity |].
  exact (tokens_equal_iff w w (S (reads w)) (reads w)).
Qed.

(* ===================================================================== *)
(** ** Further properties: sequences of operations                        *)
(* ===================================================================== *)

Section Sequences.

Lemma rotations_none (ops : list op) : rotations ops = 0 -> ~ In Rotate_session ops.
Proof.
  induction ops as [| o rest IH]; simpl; [tauto |].
  destruct o; try discriminate; intros H [E | Hin]; try discriminate; exact (IH H Hin).
Qed.

(** What a sequence of operations does to the world and to the session
    id, by the number of rotations it ran. *)
Lemma run_effects (ops : list op) (pm : ProxyManager) (w : world) :
  exists o w' k,
    run ops pm w = (o, w') /\ k <= rotations ops /\
    urandom w' = urandom w /\
    reads w' = reads w + k /\
    log w' = (log w ++ map (fun i => Info_session_rotated (token_at w i))
                           (seq (reads w) k))%list /\
    match o with
    | Returns pm' =>
        k = rotations ops /\ same_config pm' pm /\
        _session_id pm' =
          match k with
          | 0 => _session_id pm
          | S n => token_at w (reads w + n)
          end
    | Raises e => e = ValueError
    | OffType _ => False
    end.
Proof.
  revert pm w. induction ops as [| o rest IH]; intros pm w.
  - exists (Returns pm), w, 0. simpl. rewrite Nat.add_0_r, app_nil_r.
    split; [reflexivity |]. split; [lia |]. do 4 (split; [reflexivity |]).
    split; [apply same_config_refl | reflexivity].
  - assert (R : o <> Rotate_session ->
                rotations (o :: rest) = rotations rest /\
                (run (o :: rest) pm w = run rest pm w \/
                 run (o :: rest) pm w = (Raises ValueError, w))).
    { intros Ho. split; [destruct o; try reflexivity; contradiction |].
      simpl. unfold bind.
      destruct (step_read_only o pm w Ho) as [-> | ->]; [left | right]; reflexivity. }
    assert (Stop : run (o :: rest) pm w = (Raises ValueError, w) ->
                   exists o' w' k,
                     run (o :: rest) pm w = (o', w') /\ k <= rotations (o :: rest) /\
                     urandom w' = urandom w /\ reads w' = reads w + k /\
                     log w' = (log w ++ map (fun i => Info_session_rotated (token_at w i))
                                            (seq (reads w) k))%list /\
                     match o' with
                     | Returns pm' =>
                         k = rotations (o :: rest) /\ same_config pm' pm /\
                         _session_id pm' =
                           match k with
                           | 0 => _session_id pm
                           | S n => token_at w (reads w + n)
                           end
                     | Raises e => e = ValueError
                     | OffType _ => False
                     end).
    { intros E. exists (Raises ValueError), w, 0. rewrite E.
      rewrite Nat.add_0_r. simpl seq. simpl map. rewrite app_nil_r.
      split; [reflexivity |]. split; [lia |]. do 3 (split; [reflexivity |]).
      reflexivity. }
    destruct o;
      try (destruct R as [Rn [Rr | Rr]]; [discriminate | rewrite Rn, Rr; apply IH
                                          | exact (Stop Rr)]).
    clear R Stop. simpl run. unfold bind. simpl step. unfold bind.
    rewrite rotate_session_eq. unfold ret. cbn [snd].
    destruct (IH (set_session_id (next_sid w) pm)
                 (after_log (Info_session_rotated (next_sid w)) (after_read w)))
      as (o' & w' & k & E & Hk & U & Rd & L & Sid).
    exists o', w', (S k). split; [exact E |].
    cbn [after_log after_read urandom reads log] in U, Rd, L, Sid.
    split; [simpl; lia |]. split; [exact U |]. split; [lia |]. split.
    + rewrite L. simpl. rewrite <- app_assoc. reflexivity.
    + destruct o' as [pm' | e | attr]; [| exact Sid | exact Sid].
      destruct Sid as (Hn & S & Sid). split; [simpl; lia |].
      split; [exact (same_config_trans _ _ _ S (set_session_id_same _ pm)) |].
      rewrite Sid. destruct k as [| n]; simpl.
      * rewrite Nat.add_0_r. reflexivity.
      * f_equal. lia.
Qed.

End Sequences.

(** X8. A sequence of operations returns, or stops at the first operation
    that reads and raises [ValueError]; it returns whenever the port and
    the lifetime can be written. Either way, having run [k] rotations, it
    has made [k] reads of the entropy source and logged [k] records, one
    per rotation and in order, each with the token of its read. When it
    returns, [k] is the number of rotations in the sequence, every
    attribute but the session id is kept, and the session id is the token
    of the last of these reads, or the initial one when there is no
    rotation, in which case the instance and the world are unchanged. *)
Theorem run_rotations (ops : list op) (pm : ProxyManager) (w : world) :
  exists o w' k,
    run ops pm w = (o, w') /\ k <= rotations ops /\
    reads w' = reads w + k /\
    log w' = (log w ++ map (fun i => Info_session_rotated (token_at w i))
                           (seq (reads w) k))%list /\
    (forall pm', o = Returns pm' ->
       k = rotations ops /\ same_config pm' pm /\
       _session_id pm' =
         match k with
         | 0 => _session_id pm
         | S n => token_at w (reads w + n)
         end /\
       (rotations ops = 0 -> pm' = pm /\ w' = w)) /\
    (forall e, o = Raises e -> e = ValueError) /\
    (forall attr, o <> OffType attr) /\
    (formattable pm -> exists pm', o = Returns pm').
Proof.
  destruct (run_effects ops pm w) as (o & w' & k & E & Hk & U & Rd & L & Out).
  exists o, w', k. do 4 (split; [assumption |]).
  split; [| split; [| split]].
  - intros pm' ->. destruct Out as (Hn & S & Sid). do 3 (split; [assumption |]).
    intros Z. destruct (run_read_only ops pm w (rotations_none ops Z)) as [F | F];
      rewrite E in F; [| discriminate].
    injection F as -> ->. split; reflexivity.
  - intros e ->. exact Out.
  - intros attr ->. exact Out.
  - intros F. destruct (run_formattable ops pm w F) as (pm' & w2 & E').
    rewrite E in E'. injection E' as -> _. eauto.
Qed.

(* ===================================================================== *)
(** ** Further properties: what the factories read                        *)
(* ===================================================================== *)

Section Factory_reads.

Variable env : gmap string string.

(** The instance [from_config] returns on the enabled path. *)
Lemma from_config_enabled_inv (d pc : gmap string pyval) (w w' : world) (pm : ProxyManager) :
  d !! "proxy" = Some (VDict pc) ->
  truthy (dict_get pc "enabled" (VBool false)) = true ->
  from_config env (Some (VDict d)) w = (Returns pm, w') ->
  exists p c,
    dict_get pc "provider" (VStr "brightdata") = VStr p /\
    py_or (dict_get pc "country" (VStr "")) (VStr (getenv env "PROXY_COUNTRY" "")) = VStr c /\
    py_or (dict_get pc "username" (VStr "")) (VStr (getenv env "PROXY_USERNAME" ""))
      = VStr (username pm) /\
    py_or (dict_get pc "password" (VStr "")) (VStr (getenv env "PROXY_PASSWORD" ""))
      = VStr (password pm) /\
    dict_get pc "sticky" (VBool true) = VBool (sticky pm) /\
    dict_get pc "sticky_ttl_minutes" (VInt 10) = VInt (sticky_ttl_minutes pm) /\
    provider pm = Py.strip (Py.lower p) /\ country pm = Py.strip (Py.lower c) /\
    enabled pm = true /\ w' = after_read w /\ _session_id pm = next_sid w.
Proof.
  intros Hd En H. rewrite from_config_loaded, (dict_get_Some d "proxy" _ _ Hd), En in H.
  apply init_inv in H.
  destruct H as (p & c & u & pw & st & ttl & en & h & z
                 & Hp & Hc & Hu & Hpw & Hst & Httl & [= <-] & _ & _ & -> & ->).
  exists p, c. cbn. repeat split; assumption.
Qed.

End Factory_reads.

(** X9. On the enabled path of [from_config], the user name, the
    password and the country of the configuration win when they are
    non-empty strings, and the variables [PROXY_USERNAME], [PROXY_PASSWORD]
    and [PROXY_COUNTRY] are used when the configuration leaves them out or
    gives a falsy value (empty string, null, zero); the country is
    normalised in both cases, the user name and the password are kept as
    they are. *)
Theorem from_config_credentials
    (env : gmap string string) (d pc : gmap string pyval) (w w' : world) (pm : ProxyManager) :
  d !! "proxy" = Some (VDict pc) ->
  truthy (dict_get pc "enabled" (VBool false)) = true ->
  from_config env (Some (VDict d)) w = (Returns pm, w') ->
  (forall u, pc !! "username" = Some (VStr u) -> u <> "" -> username pm = u) /\
  (truthy (dict_get pc "username" (VStr "")) = false ->
   username pm = getenv env "PROXY_USERNAME" "") /\
  (forall x, pc !! "password" = Some (VStr x) -> x <> "" -> password pm = x) /\
  (truthy (dict_get pc "password" (VStr "")) = false ->
   password pm = getenv env "PROXY_PASSWORD" "") /\
  (forall c, pc !! "country" = Some (VStr c) -> c <> "" ->
             country pm = Py.strip (Py.lower c)) /\
  (truthy (dict_get pc "country" (VStr "")) = false ->
   country pm = Py.strip (Py.lower (getenv env "PROXY_COUNTRY" ""))).
Proof.
  intros Hd En H.
  destruct (from_config_enabled_inv env d pc w w' pm Hd En H)
    as (p & c & _ & Hc & Hu & Hpw & _ & _ & _ & Hcountry & _).
  assert (K : forall k s (x : string),
             pc !! k = Some (VStr x) -> x <> "" ->
             py_or (dict_get pc k (VStr "")) (VStr s) = VStr x).
  { intros k s x Hk Hx. rewrite (dict_get_Some pc k _ _ Hk).
    apply py_or_explicit_str. exact Hx. }
  assert (F : forall k s, truthy (dict_get pc k (VStr "")) = false ->
                          py_or (dict_get pc k (VStr "")) (VStr s) = VStr s).
  { intros k s T. unfold py_or. rewrite T. reflexivity. }
  repeat split.
  - intros u Hk Hx. rewrite (K _ _ _ Hk Hx) in Hu. congruence.
  - intros T. rewrite (F _ _ T) in Hu. congruence.
  - intros x Hk Hx. rewrite (K _ _ _ Hk Hx) in Hpw. congruence.
  - intros T. rewrite (F _ _ T) in Hpw. congruence.
  - intros c0 Hk Hx. rewrite (K _ _ _ Hk Hx) in Hc. congruence.
  - intros T. rewrite (F _ _ T) in Hc. congruence.
Qed.

(** X10. On a loaded document [from_config] reads three variables of the
    environment and no other: two environments that agree on
    [PROXY_USERNAME], [PROXY_PASSWORD] and [PROXY_COUNTRY] give the same
    outcome, whatever [PROXY_ENABLED], [PROXY_PROVIDER], [PROXY_HOST],
    [PROXY_PORT], [PROXY_STICKY] and [PROXY_STICKY_TTL] hold. *)
Theorem from_config_env_independent
    (e1 e2 : gmap string string) (cfg : pyval) (w : world) :
  same_credentials_env e1 e2 ->
  from_config e1 (Some cfg) w = from_config e2 (Some cfg) w.
Proof.
  intros (Hu & Hp & Hc). rewrite !from_config_loaded.
  assert (G : forall k, e1 !! k = e2 !! k -> forall s, getenv e1 k s = getenv e2 k s).
  { intros k Hk s. unfold getenv, dict_get. rewrite Hk. reflexivity. }
  rewrite (G _ Hu), (G _ Hp), (G _ Hc). reflexivity.
Qed.

(** X11. [from_config] enables the proxy on the truth value of [enabled],
    not on its being the boolean true: an instance it returns from a
    document with a [proxy] section is enabled exactly when the value of
    [enabled] in the section is truthy (a non-empty string or a non-zero
    number enables it), and disabled when there is no [proxy] section. *)
Theorem from_config_enabled_by_truth
    (env : gmap string string) (d : gmap string pyval) (w w' : world) (pm : ProxyManager) :
  from_config env (Some (VDict d)) w = (Returns pm, w') ->
  (forall pc, d !! "proxy" = Some (VDict pc) ->
              enabled pm = truthy (dict_get pc "enabled" (VBool false))) /\
  (d !! "proxy" = None -> enabled pm = false).
Proof.
  intros H. split.
  - intros pc Hd. destruct (truthy (dict_get pc "enabled" (VBool false))) eqn:En.
    + destruct (from_config_enabled_inv env d pc w w' pm Hd En H)
        as (p & c & _ & _ & _ & _ & _ & _ & _ & _ & E & _). exact E.
    + rewrite from_config_loaded, (dict_get_Some d "proxy" _ _ Hd), En, cls_disabled in H.
      injection H as <- _. reflexivity.
  - intros Hd. rewrite from_config_loaded, (dict_get_None d "proxy" _ Hd) in H.
    change (dict_get ∅ "enabled" (VBool false)) with (VBool false) in H.
    cbn [truthy] in H. rewrite cls_disabled in H. injection H as <- _. reflexivity.
Qed.

(** X12. When [PROXY_ENABLED] is unset or falsy, [from_env] consults no
    other variable: it ends as it does on the empty environment, even if
    [PROXY_PORT] or [PROXY_STICKY_TTL] hold values that [int] rejects. *)
Theorem from_env_disabled_reads_nothing (env : gmap string string) (w : world) :
  env_disabled env -> from_env env w = from_env ∅ w.
Proof.
  intros H. rewrite (from_env_disabled env w H).
  symmetry. apply from_env_disabled. left. apply lookup_empty.
Qed.

(* ===================================================================== *)
(** ** Further properties: the summary, and what a rotation changes       *)
(* ===================================================================== *)

Section Summary_and_rotation.

Lemma append_inv_head (p a b : string) : p +:+ a = p +:+ b -> a = b.
Proof. induction p as [| c p IH]; simpl; [tauto |]. intros [= H]. exact (IH H). Qed.

Lemma append_inv_tail (a b s : string) : a +:+ s = b +:+ s -> a = b.
Proof.
  intros H.
  assert (L : String.length a = String.length b).
  { apply (f_equal String.length) in H. rewrite !length_append in H. lia. }
  revert b H L. induction a as [| x a IH]; intros [| y b]; simpl; intros H L;
    try reflexivity; try discriminate.
  injection H as -> H. rewrite (IH b H) by lia. reflexivity.
Qed.

Lemma encodes_session_cases (p : string) :
  encodes_session p = true -> p = "brightdata" \/ p = "netnut" \/ p = "iproyal".
Proof.
  unfold encodes_session, Py.str_in. simpl. intros H.
  repeat (apply orb_true_iff in H; destruct H as [H%String.eqb_eq | H]; [tauto |]).
  discriminate.
Qed.

(** The user name of a sticky instance of a provider that encodes the
    session determines the session id, where it is formatted. *)
Lemma username_determines_session (pm : ProxyManager) (a b : string) :
  sticky pm = true -> encodes_session (provider pm) = true ->
  (provider pm = "iproyal" -> is_Some (Py.str_of_int (sticky_ttl_minutes pm))) ->
  _build_proxy_username (set_session_id a pm) = _build_proxy_username (set_session_id b pm) ->
  a = b.
Proof.
  intros St En Hf. unfold _build_proxy_username, format_int.
  cbn [set_session_id provider username country sticky sticky_ttl_minutes _session_id].
  rewrite St.
  destruct (encodes_session_cases _ En) as [E | [E | E]];
    try (destruct (Hf E) as [t ->]); rewrite E; simpl String.eqb; cbv iota;
    destruct (String.eqb (country pm) ""); simpl; intros H; injection H as H;
    repeat (apply append_inv_head in H; simpl in H; try injection H as H);
    try exact H; exact (append_inv_tail _ _ _ H).
Qed.

(** The user name of an instance that is not sticky, or whose provider
    does not encode the session, does not depend on the session id. *)
Lemma username_ignores_session (pm : ProxyManager) (a : string) :
  sticky pm = false \/ encodes_session (provider pm) = false ->
  _build_proxy_username (set_session_id a pm) = _build_proxy_username pm.
Proof.
  unfold _build_proxy_username.
  cbn [set_session_id provider username country sticky sticky_ttl_minutes _session_id].
  intros [St | En].
  - rewrite St. reflexivity.
  - unfold encodes_session, Py.str_in in En. simpl in En.
    repeat (apply orb_false_iff in En; destruct En as [? En]).
    repeat match goal with H : String.eqb _ _ = false |- _ => rewrite H; clear H end.
    reflexivity.
Qed.

End Summary_and_rotation.

(** X13. On a sticky instance of a provider that encodes the session
    ([brightdata], [netnut], [iproyal] with a lifetime that can be
    written), a rotation changes the formatted user name exactly when the
    token it returns differs from the current session id. *)
Theorem rotation_changes_username (pm : ProxyManager) (w : world) :
  sticky pm = true -> encodes_session (provider pm) = true ->
  (provider pm = "iproyal" -> is_Some (Py.str_of_int (sticky_ttl_minutes pm))) ->
  exists tok pm' w',
    rotate_session pm w = (Returns (tok, pm'), w') /\
    (exists u u', _build_proxy_username pm = Returns u /\
                  _build_proxy_username pm' = Returns u' /\
                  (u' = u <-> tok = _session_id pm)).
Proof.
  intros St En Hf. do 3 eexists. rewrite rotate_session_eq. split; [reflexivity |].
  assert (E : pm = set_session_id (_session_id pm) pm) by (destruct pm; reflexivity).
  assert (R : forall sid, exists u, _build_proxy_username (set_session_id sid pm) = Returns u).
  { intros sid. destruct (build_username_outcome (set_session_id sid pm)) as [? | Hr];
      [assumption | exfalso].
    destruct (build_username_segments (set_session_id sid pm)) as [A B].
    cbn [set_session_id provider sticky sticky_ttl_minutes] in A, B.
    destruct (encodes_session_cases _ En) as [P | [P | P]].
    - rewrite (A (or_introl P)) in Hr. discriminate.
    - rewrite (A (or_intror P)) in Hr. discriminate.
    - destruct (Hf P) as [t Ht]. destruct (B P) as (_ & B2 & _).
      rewrite (B2 t Ht) in Hr. discriminate. }
  destruct (R (_session_id pm)) as [u Hu]. destruct (R (next_sid w)) as [u' Hu'].
  exists u, u'. rewrite <- E in Hu. split; [exact Hu |]. split; [exact Hu' |].
  split.
  - intros ->. apply (username_determines_session pm _ _ St En Hf).
    rewrite Hu', <- E, Hu. reflexivity.
  - intros Ht. rewrite Ht, <- E, Hu in Hu'. congruence.
Qed.

(** X14. On an instance that is not sticky, or whose provider does not
    encode the session ([stormproxies] and any provider outside the
    table), a rotation changes neither the formatted user name nor either
    descriptor: only the session id and the summary move. *)
Theorem rotation_without_effect (pm : ProxyManager) (w : world) :
  sticky pm = false \/ encodes_session (provider pm) = false ->
  exists tok pm' w',
    rotate_session pm w = (Returns (tok, pm'), w') /\
    _build_proxy_username pm' = _build_proxy_username pm /\
    get_playwright_proxy pm' = get_playwright_proxy pm /\
    get_requests_proxy pm' = get_requests_proxy pm.
Proof.
  intros H. do 3 eexists. rewrite rotate_session_eq. split; [reflexivity |].
  pose proof (username_ignores_session pm (next_sid w) H) as U.
  split; [exact U |].
  unfold get_playwright_proxy, get_requests_proxy. rewrite U. split; reflexivity.
Qed.

(** X15. The summary is the disabled marker exactly on a disabled
    instance, and it never shows a credential: two instances that differ
    only in user name, password and sticky lifetime have the same
    summary, or raise alike. *)
Theorem info_summary (pm : ProxyManager) :
  (info pm = Returns "<ProxyManager disabled>" <-> enabled pm = false) /\
  (forall q : ProxyManager,
      provider q = provider pm -> host q = host pm -> port q = port pm ->
      country q = country pm -> sticky q = sticky pm ->
      _session_id q = _session_id pm -> enabled q = enabled pm ->
      info q = info pm).
Proof.
  split.
  - unfold info. destruct (enabled pm); simpl; split; intros H;
      try reflexivity; try discriminate.
    destruct (format_int (port pm)); simpl in H; discriminate.
  - intros q Hp Hh Hpt Hc Hs Hsid He. unfold info.
    rewrite Hp, Hh, Hpt, Hc, Hs, Hsid, He. reflexivity.
Qed.

(** X16. On the enabled path [from_env] builds its instance from the
    variables as follows: the user name and the password are taken as they
    are; the provider (default [brightdata]) and the country are lowered
    and stripped; sticky is on unless [PROXY_STICKY] is set to something
    other than [true], [1], [yes]; the host and the port are the variables
    when non-empty and non-zero and the table entry of the provider
    otherwise. *)
Theorem from_env_enabled_instance (env : gmap string string) (w : world) (pt tl : Z) :
  flag (getenv env "PROXY_ENABLED" "false") = true ->
  Py.int_of_str (getenv env "PROXY_PORT" "0") = Some pt ->
  Py.int_of_str (getenv env "PROXY_STICKY_TTL" "10") = Some tl ->
  exists pm,
    from_env env w = (Returns pm, after_read w) /\ enabled pm = true /\
    provider pm = Py.strip (Py.lower (getenv env "PROXY_PROVIDER" "brightdata")) /\
    country pm = Py.strip (Py.lower (getenv env "PROXY_COUNTRY" "")) /\
    username pm = getenv env "PROXY_USERNAME" "" /\
    password pm = getenv env "PROXY_PASSWORD" "" /\
    sticky pm = flag (getenv env "PROXY_STICKY" "true") /\
    sticky_ttl_minutes pm = tl /\
    VStr (host pm) = py_or (VStr (getenv env "PROXY_HOST" "")) (table_host (provider pm)) /\
    VInt (port pm) = py_or (VInt pt) (table_port (provider pm)).
Proof.
  intros F Hp Ht. unfold from_env. rewrite F. simpl.
  unfold bind, py_int. rewrite Hp, Ht. unfold ret.
  match goal with |- context [cls ?k w] =>
    destruct (cls_returns k w) as (h & z & Hh & Hz & ->) end.
  eexists. split; [reflexivity |]. cbn in Hh, Hz |- *.
  repeat split; symmetry; assumption.
Qed.

(* ===================================================================== *)
(** ** The further properties at concrete inputs                          *)
(* ===================================================================== *)

Lemma playwright_proxy_descriptor_witness :
  (exists m : gmap string string,
      get_playwright_proxy (sample_instance "iproyal" "proxy.iproyal.com" 12321 15)
        = Returns (Some m) /\
      m !! "server" = Some "http://proxy.iproyal.com:12321" /\
      m !! "username" = Some "u_country-us_session-9daa622090a4_sessTime-15" /\
      m !! "password" = Some "p" /\
      (forall k, k <> "server" -> k <> "username" -> k <> "password" -> m !! k = None)) /\
  get_playwright_proxy sample_long_port = Raises ValueError.
Proof.
  split.
  - apply (proj1 (playwright_proxy_descriptor
                    (sample_instance "iproyal" "proxy.iproyal.com" 12321 15)
                    eq_refl ltac:(discriminate))
                 "u_country-us_session-9daa622090a4_sessTime-15" "12321"); reflexivity.
  - apply (proj2 (playwright_proxy_descriptor sample_long_port eq_refl ltac:(discriminate))).
    left. exact over_limit_unwritable.
Defined.

Lemma known_provider_outputs_present_witness :
  exists pm,
    cls (kw.mk " NetNut" "" 0 "u" "p" "" false 10 true) sample_world
      = (Returns pm, after_read sample_world) /\
    get_playwright_proxy pm <> Returns None /\ get_requests_proxy pm <> Returns None /\
    (get_playwright_proxy pm = Raises ValueError \/
     exists mp, get_playwright_proxy pm = Returns (Some mp)) /\
    (get_requests_proxy pm = Raises ValueError \/
     exists mr, get_requests_proxy pm = Returns (Some mr)) /\
    (formattable pm ->
     exists mp mr, get_playwright_proxy pm = Returns (Some mp) /\
                   get_requests_proxy pm = Returns (Some mr)).
Proof.
  apply (known_provider_outputs_present
           (kw.mk " NetNut" "" 0 "u" "p" "" false 10 true) sample_world);
    reflexivity.
Defined.

Lemma unknown_provider_outputs_absent_witness :
  exists pm,
    cls (kw.mk "custom" "" 8080 "u" "p" "us" true 10 true) sample_world
      = (Returns pm, after_read sample_world) /\
    enabled pm = true /\ host pm = "" /\ outputs_absent pm.
Proof.
  apply (unknown_provider_outputs_absent
           (kw.mk "custom" "" 8080 "u" "p" "us" true 10 true) sample_world);
    reflexivity.
Defined.

Lemma reconstruction_round_trip_witness :
  exists pm',
    cls (kw_of (sample_instance "iproyal" "proxy.iproyal.com" 12321 15)) sample_world
      = (Returns pm', after_read sample_world) /\
    same_config pm' (sample_instance "iproyal" "proxy.iproyal.com" 12321 15) /\
    _session_id pm' = next_sid sample_world.
Proof.
  apply (reconstruction_round_trip
           (VStr " IPRoyal") (VStr "") (VInt 0) (VStr "u") (VStr "p") (VStr "US ")
           (VBool true) (VInt 15) (VBool true) sample_world (after_read sample_world)).
  vm_compute. reflexivity.
Defined.

Lemma from_config_credentials_witness :
  username sample_config_instance = "cfg-user" /\
  password sample_config_instance = getenv sample_env "PROXY_PASSWORD" "" /\
  country sample_config_instance
    = Py.strip (Py.lower (getenv sample_env "PROXY_COUNTRY" "")).
Proof.
  destruct (from_config_credentials sample_env sample_config sample_section
              sample_world (after_read sample_world) sample_config_instance)
    as (U & _ & _ & P & _ & C).
  - reflexivity.
  - reflexivity.
  - vm_compute. reflexivity.
  - split; [apply U; [reflexivity | discriminate] |].
    split; [apply P | apply C]; reflexivity.
Defined.

Lemma from_config_env_independent_witness :
  from_config sample_env (Some (VDict sample_config)) sample_world
  = from_config (<[ "PROXY_PROVIDER" := "stormproxies" ]>
                   (<[ "PROXY_PORT" := "abc" ]> sample_env))
                (Some (VDict sample_config)) sample_world.
Proof.
  apply (from_config_env_independent sample_env
           (<[ "PROXY_PROVIDER" := "stormproxies" ]> (<[ "PROXY_PORT" := "abc" ]> sample_env))
           (VDict sample_config) sample_world).
  repeat split; vm_compute; reflexivity.
Defined.

Lemma from_config_enabled_by_truth_witness :
  (forall pc, sample_config !! "proxy" = Some (VDict pc) ->
              enabled sample_config_instance = truthy (dict_get pc "enabled" (VBool false))) /\
  (sample_config !! "proxy" = None -> enabled sample_config_instance = false).
Proof.
  apply (from_config_enabled_by_truth sample_env sample_config sample_world
           (after_read sample_world) sample_config_instance).
  vm_compute. reflexivity.
Defined.

Lemma from_env_disabled_reads_nothing_witness :
  from_env {[ "PROXY_ENABLED" := "off"; "PROXY_PORT" := "abc" ]} sample_world
  = from_env ∅ sample_world.
Proof.
  apply (from_env_disabled_reads_nothing
           {[ "PROXY_ENABLED" := "off"; "PROXY_PORT" := "abc" ]} sample_world).
  right. exists "off". split; reflexivity.
Defined.

Lemma rotation_changes_username_witness :
  exists tok pm' w',
    rotate_session (sample_instance "iproyal" "proxy.iproyal.com" 12321 15)
                   (after_read sample_world) = (Returns (tok, pm'), w') /\
    (exists u u',
        _build_proxy_username (sample_instance "iproyal" "proxy.iproyal.com" 12321 15)
          = Returns u /\
        _build_proxy_username pm' = Returns u' /\
        (u' = u <-> tok = _session_id (sample_instance "iproyal" "proxy.iproyal.com" 12321 15))).
Proof.
  apply (rotation_changes_username
           (sample_instance "iproyal" "proxy.iproyal.com" 12321 15)
           (after_read sample_world)); [reflexivity | reflexivity |].
  intros _. vm_compute. eauto.
Defined.

Lemma rotation_without_effect_witness :
  exists tok pm' w',
    rotate_session (sample_instance "stormproxies" "rotating.stormproxies.com" 9999 15)
                   (after_read sample_world) = (Returns (tok, pm'), w') /\
    _build_proxy_username pm' = Returns "u" /\
    get_playwright_proxy pm'
      = get_playwright_proxy (sample_instance "stormproxies" "rotating.stormproxies.com" 9999 15) /\
    get_requests_proxy pm'
      = get_requests_proxy (sample_instance "stormproxies" "rotating.stormproxies.com" 9999 15).
Proof.
  apply (rotation_without_effect
           (sample_instance "stormproxies" "rotating.stormproxies.com" 9999 15)
           (after_read sample_world)).
  right. reflexivity.
Defined.

Lemma from_env_enabled_instance_witness :
  exists pm,
    from_env {[ "PROXY_ENABLED" := "YES"; "PROXY_PROVIDER" := "NetNut ";
                "PROXY_PORT" := " 8_080"; "PROXY_STICKY" := "off" ]} sample_world
      = (Returns pm, after_read sample_world) /\
    provider pm = "netnut" /\ sticky pm = false /\ sticky_ttl_minutes pm = 10%Z /\
    host pm = "gw-resi.netnut.io" /\ port pm = 8080%Z.
Proof.
  destruct (from_env_enabled_instance
              {[ "PROXY_ENABLED" := "YES"; "PROXY_PROVIDER" := "NetNut ";
                 "PROXY_PORT" := " 8_080"; "PROXY_STICKY" := "off" ]}
              sample_world 8080 10)
    as (pm & E & _ & Hp & _ & _ & _ & Hs & Ht & Hh & Hz).
  - reflexivity.
  - reflexivity.
  - reflexivity.
  - exists pm. split; [exact E |]. rewrite Hp in Hh, Hz.
    vm_compute in Hp, Hs, Hh, Hz. injection Hh as Hh. injection Hz as Hz.
    split; [exact Hp |]. split; [exact Hs |]. split; [exact Ht |].
    split; [exact Hh | exact Hz].
Defined.

(** X17. A [proxy] section that enables the proxy and gives nothing else
    makes [from_config] construct with the defaults of the constructor
    (provider [brightdata], sticky, lifetime 10, end point from the table)
    and the credentials and country of the environment. *)
Theorem from_config_missing_keys
    (env : gmap string string) (d pc : gmap string pyval) (w : world) :
  d !! "proxy" = Some (VDict pc) ->
  truthy (dict_get pc "enabled" (VBool false)) = true ->
  (forall k, k <> "enabled" -> pc !! k = None) ->
  from_config env (Some (VDict d)) w =
    cls (kw.mk "brightdata" "" 0
               (getenv env "PROXY_USERNAME" "") (getenv env "PROXY_PASSWORD" "")
               (getenv env "PROXY_COUNTRY" "") true 10 true) w.
Proof.
  intros Hd En Hk.
  rewrite from_config_loaded, (dict_get_Some d "proxy" _ _ Hd), En.
  rewrite !(fun k v H => dict_get_None pc k v (Hk k H)) by discriminate.
  reflexivity.
Qed.

Lemma from_config_missing_keys_witness :
  from_config sample_env (Some (VDict {[ "proxy" := VDict {[ "enabled" := VInt 1 ]} ]}))
              sample_world
  = cls (kw.mk "brightdata" "" 0 "" "env-pass" " DE" true 10 true) sample_world.
Proof.
  apply (from_config_missing_keys sample_env
           {[ "proxy" := VDict {[ "enabled" := VInt 1 ]} ]} {[ "enabled" := VInt 1 ]}
           sample_world).
  - reflexivity.
  - reflexivity.
  - intros k Hk. apply lookup_singleton_ne. congruence.
Defined.
